(** * Selector scoring and indentation line processing

    A shallow embedding of
    - [src/vs/editor/common/languageSelector.ts] ([score], [_scoreOne]) and
    - [src/vs/editor/common/languages/supports/indentationLineProcessor.ts]
      ([IndentationLineProcessor.getProcessedLineAndTokens],
       [IndentationContextProcessor._getProcessedPreviousLine]),
    followed by the properties of the design document that concern them. *)

From Stdlib Require Import String Ascii List ZArith Bool Lia Permutation.
Import ListNotations.

Local Open Scope Z_scope.

(** ** JavaScript values shared by both components *)

(** JS truthiness of a [string]: every string but the empty one. *)
Definition truthyString (s : string) : bool := negb (String.eqb s "").

(** JS truthiness of a [string | undefined] property. *)
Definition truthy (x : option string) : bool :=
  match x with
  | Some s => truthyString s
  | None => false
  end.

(** JS truthiness of a [boolean | undefined] property. *)
Definition truthyBool (b : option bool) : bool :=
  match b with
  | Some true => true
  | _ => false
  end.

(** ** languageSelector.ts *)

Module LanguageSelector.

(** [IRelativePattern] of vs/base/common/glob: a base path and a glob. *)
Record IRelativePattern := mkRelativePattern {
  base : string;
  glob : string
}.

(** [string | IRelativePattern] *)
Inductive Pattern :=
| PatternString (s : string)
| PatternRelative (p : IRelativePattern).

(** The two properties of [URI] that the scorer reads. *)
Record URI := mkURI {
  uri_scheme : string;
  uri_fsPath : string
}.

Record NotebookFilter := mkNotebookFilter {
  nb_notebookType : option string;
  nb_scheme : option string;
  nb_pattern : option Pattern
}.

(** [string | NotebookFilter], the type of [LanguageFilter.notebook]. *)
Inductive NotebookClause :=
| NotebookString (s : string)
| NotebookObject (f : NotebookFilter).

Record LanguageFilter := mkLanguageFilter {
  language : option string;
  scheme : option string;
  pattern : option Pattern;
  notebook : option NotebookClause;
  hasAccessToAllModels : option bool;
  exclusive : option bool
}.

(** [string | LanguageFilter], the element type of an array selector. *)
Inductive SelectorElement :=
| ElemString (s : string)
| ElemFilter (f : LanguageFilter).

(** [string | LanguageFilter | ReadonlyArray<string | LanguageFilter>];
    [undefined] is [None] at the use site. *)
Inductive LanguageSelector :=
| SelString (s : string)
| SelFilter (f : LanguageFilter)
| SelArray (l : list SelectorElement).

(** [{ notebookUri: URI; notebookType: string }] *)
Record NotebookInfo := mkNotebookInfo {
  notebookUri : URI;
  notebookType : string
}.

(** Truthiness of a [string | IRelativePattern | undefined]: an object is
    always truthy. *)
Definition truthyPattern (p : option Pattern) : bool :=
  match p with
  | Some (PatternString s) => truthyString s
  | Some (PatternRelative _) => true
  | None => false
  end.

(** Truthiness of a [string | NotebookFilter | undefined]. *)
Definition truthyNotebook (n : option NotebookClause) : bool :=
  match n with
  | Some (NotebookString s) => truthyString s
  | Some (NotebookObject _) => true
  | None => false
  end.

(** Control flow of a block of [_scoreOne]: either the function returns, or
    execution falls through to the next block with the current [ret]. *)
Inductive Flow :=
| Return (value : Z)
| Continue (ret : Z).

Fixpoint runGates (gates : list (Z -> Flow)) (ret : Z) : Z :=
  match gates with
  | [] => ret
  | g :: rest =>
      match g ret with
      | Return v => v
      | Continue ret' => runGates rest ret'
      end
  end.

Section Scoring.

(** [match] of vs/base/common/glob and [normalize] of vs/base/common/path
    are imported by the source; they are parameters of the scorer. *)
Variable matchGlobPattern : Pattern -> string -> bool.
Variable normalize : string -> string.

(** Lines 109-117: [if (scheme) { ... }]. *)
Definition schemeGate (scheme : option string) (candidateUri : URI) (ret : Z) : Flow :=
  match scheme with
  | Some s =>
      if truthyString s then
        if String.eqb s (uri_scheme candidateUri) then Continue 10
        else if String.eqb s "*" then Continue 5
        else Return 0
      else Continue ret
  | None => Continue ret
  end.

(** Lines 119-127: [if (language) { ... }]. *)
Definition languageGate (language : option string) (candidateLanguage : string) (ret : Z) : Flow :=
  match language with
  | Some l =>
      if truthyString l then
        if String.eqb l candidateLanguage then Continue 10
        else if String.eqb l "*" then Continue (Z.max ret 5)
        else Return 0
      else Continue ret
  | None => Continue ret
  end.

(** Lines 130-140: a string pattern is kept, a relative pattern gets its
    base normalized. *)
Definition normalizePattern (p : Pattern) : Pattern :=
  match p with
  | PatternString s => PatternString s
  | PatternRelative r => PatternRelative (mkRelativePattern (normalize (base r)) (glob r))
  end.

(** Line 142: [normalizedPattern === candidateUri.fsPath ||
    matchGlobPattern(normalizedPattern, candidateUri.fsPath)].  An object is
    never [===] to a string. *)
Definition patternMatches (p : Pattern) (candidateUri : URI) : bool :=
  let normalizedPattern := normalizePattern p in
  (match normalizedPattern with
   | PatternString s => String.eqb s (uri_fsPath candidateUri)
   | PatternRelative _ => false
   end) || matchGlobPattern normalizedPattern (uri_fsPath candidateUri).

(** Lines 129-147: [if (pattern) { ... }]. *)
Definition patternGate (pattern : option Pattern) (candidateUri : URI) (ret : Z) : Flow :=
  match pattern with
  | Some p =>
      if truthyPattern (Some p) then
        if patternMatches p candidateUri then Continue 10
        else Return 0
      else Continue ret
  | None => Continue ret
  end.

(** Lines 105-150. *)
Definition _scoreOne (scheme language : option string) (pattern : option Pattern)
    (candidateUri : URI) (candidateLanguage : string) : Z :=
  runGates [schemeGate scheme candidateUri;
            languageGate language candidateLanguage;
            patternGate pattern candidateUri] 0.

(** Lines 48-63: the [typeof selector === 'string'] branch. *)
Definition scoreString (selector : string) (candidateLanguage : string)
    (candidateIsSynchronized : bool) : Z :=
  if negb candidateIsSynchronized then 0
  else if String.eqb selector "*" then 5
  else if String.eqb selector candidateLanguage then 10
  else 0.

(** Lines 77-82: the notebook sub-score. *)
Definition notebookScoreOf (notebook : NotebookClause) (candidateNotebookInfo : NotebookInfo) : Z :=
  match notebook with
  | NotebookString s =>
      _scoreOne None (Some s) None
        (notebookUri candidateNotebookInfo) (notebookType candidateNotebookInfo)
  | NotebookObject f =>
      _scoreOne (nb_scheme f) (nb_notebookType f) (nb_pattern f)
        (notebookUri candidateNotebookInfo) (notebookType candidateNotebookInfo)
  end.

(** Lines 65-97: the filter branch. *)
Definition scoreFilter (selector : LanguageFilter) (candidateUri : URI)
    (candidateLanguage : string) (candidateIsSynchronized : bool)
    (candidateNotebookInfo : option NotebookInfo) : Z :=
  if negb candidateIsSynchronized && negb (truthyBool (hasAccessToAllModels selector)) then 0
  else
    match notebook selector with
    | Some nb =>
        if truthyNotebook (Some nb) then
          match candidateNotebookInfo with
          | None => 0
          | Some info =>
              let notebookScore := notebookScoreOf nb info in
              if notebookScore =? 0 then 0
              else if negb (truthy (scheme selector)) && negb (truthy (language selector))
                      && negb (truthyPattern (pattern selector))
              then notebookScore
              else
                let documentScore :=
                  _scoreOne (scheme selector) (language selector) (pattern selector)
                    candidateUri candidateLanguage in
                if documentScore =? 0 then 0
                else Z.max notebookScore documentScore
          end
        else
          _scoreOne (scheme selector) (language selector) (pattern selector)
            candidateUri candidateLanguage
    | None =>
        _scoreOne (scheme selector) (language selector) (pattern selector)
          candidateUri candidateLanguage
    end.

(** The recursive call [score(filter, ...)] of the array loop: an element is
    a string or a filter. *)
Definition scoreElement (filter : SelectorElement) (candidateUri : URI)
    (candidateLanguage : string) (candidateIsSynchronized : bool)
    (candidateNotebookInfo : option NotebookInfo) : Z :=
  match filter with
  | ElemString s => scoreString s candidateLanguage candidateIsSynchronized
  | ElemFilter f =>
      scoreFilter f candidateUri candidateLanguage candidateIsSynchronized candidateNotebookInfo
  end.

(** Lines 36-46: the loop over an array selector, from the accumulator
    [ret]. *)
Fixpoint scoreArray (scoreOf : SelectorElement -> Z) (ret : Z) (selector : list SelectorElement) : Z :=
  match selector with
  | [] => ret
  | filter :: rest =>
      let value := scoreOf filter in
      if value =? 10 then value
      else scoreArray scoreOf (if value >? ret then value else ret) rest
  end.

(** The same loop, also recording the elements whose score was computed, in
    the order in which they were. *)
Fixpoint scoreArrayTraced (scoreOf : SelectorElement -> Z) (ret : Z)
    (selector : list SelectorElement) : Z * list SelectorElement :=
  match selector with
  | [] => (ret, [])
  | filter :: rest =>
      let value := scoreOf filter in
      if value =? 10 then (value, [filter])
      else
        let (result, evaluated) :=
          scoreArrayTraced scoreOf (if value >? ret then value else ret) rest in
        (result, filter :: evaluated)
  end.

(** Lines 32-103. *)
Definition score (selector : option LanguageSelector) (candidateUri : URI)
    (candidateLanguage : string) (candidateIsSynchronized : bool)
    (candidateNotebookInfo : option NotebookInfo) : Z :=
  match selector with
  | Some (SelArray l) =>
      scoreArray
        (fun filter => scoreElement filter candidateUri candidateLanguage
                         candidateIsSynchronized candidateNotebookInfo)
        0 l
  | Some (SelString s) => scoreString s candidateLanguage candidateIsSynchronized
  | Some (SelFilter f) =>
      scoreFilter f candidateUri candidateLanguage candidateIsSynchronized candidateNotebookInfo
  | None => 0
  end.

(** *** Vocabulary of the properties *)

(** A field is present (truthy, as tested by [if (scheme)]) and matches
    neither the candidate nor, for scheme and language, the wildcard. *)
Definition schemeVetoes (scheme : option string) (candidateUri : URI) : bool :=
  match scheme with
  | Some s =>
      truthyString s && negb (String.eqb s (uri_scheme candidateUri))
      && negb (String.eqb s "*")
  | None => false
  end.

Definition languageVetoes (language : option string) (candidateLanguage : string) : bool :=
  match language with
  | Some l =>
      truthyString l && negb (String.eqb l candidateLanguage) && negb (String.eqb l "*")
  | None => false
  end.

Definition patternVetoes (pattern : option Pattern) (candidateUri : URI) : bool :=
  match pattern with
  | Some p => truthyPattern (Some p) && negb (patternMatches p candidateUri)
  | None => false
  end.

(** The three blocks of [_scoreOne], by name, so that they can be run in
    another order than the implemented one. *)
Inductive Gate :=
| SchemeGate
| LanguageGate
| PatternGate.

Definition implementedOrder : list Gate := [SchemeGate; LanguageGate; PatternGate].

Definition gateOf (scheme language : option string) (pattern : option Pattern)
    (candidateUri : URI) (candidateLanguage : string) (g : Gate) : Z -> Flow :=
  match g with
  | SchemeGate => schemeGate scheme candidateUri
  | LanguageGate => languageGate language candidateLanguage
  | PatternGate => patternGate pattern candidateUri
  end.

(** [_scoreOne] with its blocks run in the given order. *)
Definition scoreOneInOrder (order : list Gate) (scheme language : option string)
    (pattern : option Pattern) (candidateUri : URI) (candidateLanguage : string) : Z :=
  runGates (map (gateOf scheme language pattern candidateUri candidateLanguage) order) 0.

(** An element of an array selector, as the selector passed to the
    recursive call. *)
Definition elementAsSelector (filter : SelectorElement) : LanguageSelector :=
  match filter with
  | ElemString s => SelString s
  | ElemFilter f => SelFilter f
  end.

End Scoring.

(** The candidate passes the gate of line 69. *)
Definition passesSynchronizationGate (selector : LanguageFilter)
    (candidateIsSynchronized : bool) : bool :=
  candidateIsSynchronized || truthyBool (hasAccessToAllModels selector).

(** None of scheme/language/pattern is set (line 86). *)
Definition noDocumentField (selector : LanguageFilter) : bool :=
  negb (truthy (scheme selector)) && negb (truthy (language selector))
  && negb (truthyPattern (pattern selector)).

(** The possible scores. *)
Definition isScoreValue (v : Z) : Prop := v = 0 \/ v = 5 \/ v = 10.

(** A filter with the given fields and every other field [undefined]. *)
Definition filterOf (language scheme : option string) (notebook : option NotebookClause)
    (hasAccessToAllModels : option bool) : LanguageFilter :=
  mkLanguageFilter language scheme None notebook hasAccessToAllModels None.

(** A glob matcher and a path normalizer for the examples: no glob
    matches, paths are already normalized. *)
Definition exampleGlob : Pattern -> string -> bool := fun _ _ => false.
Definition exampleNormalize : string -> string := fun path => path.

Definition fileUri : URI := mkURI "file" "/home/user/main.rs".
Definition httpUri : URI := mkURI "http" "/main.rs".
Definition jupyterInfo : NotebookInfo :=
  mkNotebookInfo (mkURI "file" "/home/user/book.ipynb") "jupyter-notebook".

(** *** Closed form of the single-clause scorer *)

(** A field that is set and equal to the candidate's. *)
Definition schemeExact (scheme : option string) (candidateUri : URI) : bool :=
  match scheme with
  | Some s => truthyString s && String.eqb s (uri_scheme candidateUri)
  | None => false
  end.

Definition languageExact (language : option string) (candidateLanguage : string) : bool :=
  match language with
  | Some l => truthyString l && String.eqb l candidateLanguage
  | None => false
  end.

(** Some gate returns 0. *)
Definition anyVeto (matchGlobPattern : Pattern -> string -> bool) (normalize : string -> string)
    (scheme language : option string) (pattern : option Pattern)
    (candidateUri : URI) (candidateLanguage : string) : bool :=
  schemeVetoes scheme candidateUri
  || languageVetoes language candidateLanguage
  || patternVetoes matchGlobPattern normalize pattern candidateUri.

(** The score written without control flow: 0 on a veto, 10 when the scheme
    or the language is the candidate's or a pattern is set, 5 when only
    wildcards are set, 0 when nothing is set. *)
Definition scoreOneClosedForm (matchGlobPattern : Pattern -> string -> bool)
    (normalize : string -> string) (scheme language : option string)
    (pattern : option Pattern) (candidateUri : URI) (candidateLanguage : string) : Z :=
  if anyVeto matchGlobPattern normalize scheme language pattern candidateUri candidateLanguage
  then 0
  else if schemeExact scheme candidateUri || languageExact language candidateLanguage
          || truthyPattern pattern
  then 10
  else if truthy scheme || truthy language then 5
  else 0.

(** A pattern that the example matcher accepts: the path itself. *)
Definition mainRsPattern : Pattern := PatternString "/home/user/main.rs".

End LanguageSelector.

(** ** indentationLineProcessor.ts *)

Module IndentationLineProcessor.

(** A JavaScript string: its sequence of UTF-16 code units. *)
Definition JSString := list N.

(** The code units of an ASCII literal. *)
Definition str (s : string) : JSString := map N_of_ascii (list_ascii_of_string s).

Definition jsLength (s : JSString) : Z := Z.of_nat (length s).

(** [String.prototype.substring]: both indices are clamped to the string and
    swapped when out of order. *)
Definition substring (s : JSString) (indexStart indexEnd : Z) : JSString :=
  let len := jsLength s in
  let a := Z.min (Z.max indexStart 0) len in
  let b := Z.min (Z.max indexEnd 0) len in
  firstn (Z.to_nat (Z.max a b - Z.min a b)) (skipn (Z.to_nat (Z.min a b)) s).

(** *** Regular expressions built from escaped text *)

Definition backslash : N := 92%N.

(** The character class of line 244: [[.*+?^${}()|[\]\\]]. *)
Definition isRegexSpecial (c : N) : bool :=
  existsb (N.eqb c) (str ".*+?^${}()|[]\").

(** Line 243-245: a special character is prefixed by a backslash. *)
Definition escapeCharacterForRegex (character : N) : JSString :=
  if isRegexSpecial character then [backslash; character] else [character].

(** Lines 236-242.  No code unit of a surrogate pair is special, so escaping
    code point by code point is escaping code unit by code unit. *)
Definition escapeStringForRegex (text : JSString) : JSString :=
  flat_map escapeCharacterForRegex text.

(** The literal text matched by a regular expression whose source holds only
    ordinary characters and backslash-escaped characters. *)
Fixpoint regexLiteral (source : JSString) : JSString :=
  match source with
  | [] => []
  | c :: rest =>
      if N.eqb c backslash then
        match rest with
        | c' :: rest' => c' :: regexLiteral rest'
        | [] => []
        end
      else c :: regexLiteral rest
  end.

Fixpoint startsWith (literal line : JSString) : bool :=
  match literal, line with
  | [], _ => true
  | _ :: _, [] => false
  | b :: bs, c :: cs => N.eqb b c && startsWith bs cs
  end.

(** Left-to-right scan of [String.prototype.replace] with a global regular
    expression matching [literal] and the replacement ['']; [skip] code
    units of a match are still to be dropped. *)
Fixpoint removeLiteralFrom (literal : JSString) (skip : nat) (line : JSString) : JSString :=
  match line with
  | [] => []
  | c :: rest =>
      match skip with
      | S k => removeLiteralFrom literal k rest
      | O =>
          if startsWith literal line
          then removeLiteralFrom literal (length literal - 1) rest
          else c :: removeLiteralFrom literal O rest
      end
  end.

(** [line.replace(new RegExp(source, 'g'), '')] for an escaped source.  The
    empty regular expression matches only empty strings: nothing is removed. *)
Definition replaceAllWithEmpty (source : JSString) (line : JSString) : JSString :=
  match regexLiteral source with
  | [] => line
  | literal => removeLiteralFrom literal O line
  end.

(** *** Token tables *)

(** [StandardTokenType] of vs/editor/common/encodedTokenAttributes. *)
Inductive StandardTokenType :=
| TokenOther
| TokenComment
| TokenString
| TokenRegEx.

(** [ILanguageIdCodec.decodeLanguageId] *)
Definition LanguageIdCodec := Z -> string.

(** Modelled from the spec: class [LineTokens] (vs/editor/common/tokens/lineTokens,
    the implementation of [IViewLineTokens]) is not part of the sources.  Its
    token table is the interleaved array of (end-offset, metadata) pairs over
    the line text; a token's text is the text between the previous end-offset
    and its own. *)
Record LineTokens := mkLineTokens {
  _tokens : list Z;
  _text : JSString;
  languageIdCodec : LanguageIdCodec
}.

Definition getLineContent (t : LineTokens) : JSString := _text t.

Definition getCount (t : LineTokens) : nat := Nat.div2 (length (_tokens t)).

Definition getEndOffset (t : LineTokens) (tokenIndex : nat) : Z :=
  nth (2 * tokenIndex) (_tokens t) 0.

Definition getStartOffset (t : LineTokens) (tokenIndex : nat) : Z :=
  match tokenIndex with
  | O => 0
  | S previous => nth (2 * previous) (_tokens t) 0
  end.

Definition getMetadata (t : LineTokens) (tokenIndex : nat) : Z :=
  nth (2 * tokenIndex + 1) (_tokens t) 0.

Definition getTokenText (t : LineTokens) (tokenIndex : nat) : JSString :=
  substring (_text t) (getStartOffset t tokenIndex) (getEndOffset t tokenIndex).

(** [new Uint32Array(numbers)]: every element is reduced modulo 2^32. *)
Definition Uint32Array (numbers : list Z) : list Z :=
  map (fun x => x mod 4294967296) numbers.

(** Lines 16-19. *)
Record ProcessedLineData := mkProcessedLineData {
  processedLine : JSString;
  processedLineTokens : LineTokens
}.

(** One bracket of the language configuration: its opening and its closing
    strings. *)
Record RichEditBracket := mkRichEditBracket {
  open : list JSString;
  close : list JSString
}.

Record RichEditBrackets := mkRichEditBrackets {
  brackets : list RichEditBracket
}.

(** The property of the resolved language configuration that is read:
    [brackets], possibly [null]. *)
Record ResolvedLanguageConfiguration := mkResolvedLanguageConfiguration {
  config_brackets : option RichEditBrackets
}.

(** Lines 219-223. *)
Definition isTokenTypeToProcess (tokenType : StandardTokenType) : bool :=
  match tokenType with
  | TokenString | TokenRegEx | TokenComment => true
  | TokenOther => false
  end.

(** Lines 224-235, with the two bracket lists of lines 253-254 as
    arguments. *)
Definition removeBracketsFromText (openBrackets closedBrackets : list JSString)
    (line : JSString) : JSString :=
  let processedLine :=
    fold_left (fun processedLine bracket =>
                 replaceAllWithEmpty (escapeStringForRegex bracket) processedLine)
              openBrackets line in
  fold_left (fun processedLine bracket =>
               replaceAllWithEmpty (escapeStringForRegex bracket) processedLine)
            closedBrackets processedLine.

(** The variables assigned by the callback of [tokens.forEach]. *)
Record LoopState := mkLoopState {
  offset : Z;
  loop_processedLine : JSString;
  processedTokensArray : list Z
}.

Section Processor.

(** [TokenMetadata.getTokenType] and [TokenMetadata.getLanguageId] of
    vs/editor/common/encodedTokenAttributes decode a metadata word; the bit
    layout is not part of the sources. *)
Variable TokenMetadata_getTokenType : Z -> StandardTokenType.
Variable TokenMetadata_getLanguageId : Z -> Z.

(** [languageConfigurationService.getLanguageConfiguration] *)
Variable getLanguageConfiguration : string -> ResolvedLanguageConfiguration.

Definition getStandardTokenType (t : LineTokens) (tokenIndex : nat) : StandardTokenType :=
  TokenMetadata_getTokenType (getMetadata t tokenIndex).

Definition getLanguageId (t : LineTokens) (tokenIndex : nat) : string :=
  languageIdCodec t (TokenMetadata_getLanguageId (getMetadata t tokenIndex)).

(** Lines 259-274: the callback, for one token index. *)
Definition processToken (openBrackets closedBrackets : list JSString) (tokens : LineTokens)
    (st : LoopState) (tokenIndex : nat) : LoopState :=
  let tokenType := getStandardTokenType tokens tokenIndex in
  let text := getTokenText tokens tokenIndex in
  let metadata := getMetadata tokens tokenIndex in
  let endOffset := getEndOffset tokens tokenIndex - offset st in
  let pushed := processedTokensArray st ++ [endOffset; metadata] in
  if isTokenTypeToProcess tokenType then
    let processedText := removeBracketsFromText openBrackets closedBrackets text in
    mkLoopState (offset st + (jsLength text - jsLength processedText))
                (loop_processedLine st ++ processedText)
                pushed
  else
    mkLoopState (offset st) (loop_processedLine st ++ text) pushed.

(** Lines 256-277: [forEach] calls the callback on 0, ..., count - 1. *)
Definition processTokens (openBrackets closedBrackets : list JSString) (tokens : LineTokens)
    : ProcessedLineData :=
  let final :=
    fold_left (processToken openBrackets closedBrackets tokens)
              (seq 0 (getCount tokens))
              (mkLoopState 0 [] []) in
  let processedTokens := Uint32Array (processedTokensArray final) in
  mkProcessedLineData (loop_processedLine final)
    (mkLineTokens processedTokens (loop_processedLine final) (languageIdCodec tokens)).

(** Lines 216-278. *)
Definition getProcessedLineAndTokens (tokens : LineTokens) : ProcessedLineData :=
  let languageId := getLanguageId tokens 0 in
  match config_brackets (getLanguageConfiguration languageId) with
  | None => mkProcessedLineData (getLineContent tokens) tokens
  | Some bs =>
      let openBrackets := flat_map open (brackets bs) in
      let closedBrackets := flat_map close (brackets bs) in
      processTokens openBrackets closedBrackets tokens
  end.

(** *** The previous line of a range *)

(** Modelled from the spec: class [ScopedLineTokens]
    (vs/editor/common/languages/supports) is not part of the sources.  A scope
    is the sub-range of a line governed by a single language id; it starts at
    column offset 0 when its first character offset is 0. *)
Record ScopedLineTokens := mkScopedLineTokens {
  scoped_languageIdCodec : LanguageIdCodec;
  languageId : string;
  _actual : LineTokens;
  firstCharOffset : Z;
  _lastCharOffset : Z
}.

Definition scoped_getLineContent (s : ScopedLineTokens) : JSString :=
  substring (getLineContent (_actual s)) (firstCharOffset s) (_lastCharOffset s).

Definition doesScopeStartAtOffsetZero (s : ScopedLineTokens) : bool :=
  firstCharOffset s =? 0.

(** The start line of a [Range]; line numbers start at 1. *)
Record Range := mkRange {
  startLineNumber : positive;
  startColumn : positive;
  endLineNumber : positive;
  endColumn : positive
}.

(** The text model ([tokenization.getLineTokens] after
    [forceTokenization], [getLineMaxColumn]) and the helpers imported from
    files outside the sources. *)
Variable model_getLineTokens : Z -> LineTokens.
Variable model_getLineMaxColumn : Z -> Z.
Variable createScopedLineTokens : LineTokens -> Z -> ScopedLineTokens.
Variable sliceAndInflate : LineTokens -> Z -> Z -> Z -> LineTokens.
Variable LineTokens_createEmpty : JSString -> LanguageIdCodec -> LineTokens.

(** Lines 142-148. *)
Definition getScopedLineTokensAtEndColumnOfLine (lineNumber : Z) : ScopedLineTokens :=
  let lineTokens := model_getLineTokens lineNumber in
  let endColumnOfLine := model_getLineMaxColumn lineNumber - 1 in
  createScopedLineTokens lineTokens endColumnOfLine.

(** Lines 149-156. *)
Definition getSlicedLineTokensForScopeAtLine (scopedLineTokens : ScopedLineTokens)
    (lineNumber : Z) : LineTokens :=
  let initialLine := model_getLineTokens lineNumber in
  let scopedLine := scoped_getLineContent scopedLineTokens in
  let firstCharacterOffset := firstCharOffset scopedLineTokens in
  let lastCharacterOffset := firstCharacterOffset + jsLength scopedLine in
  sliceAndInflate initialLine firstCharacterOffset lastCharacterOffset 0.

(** Line 159. *)
Definition nullProcessedData (scopedLineTokens : ScopedLineTokens) : ProcessedLineData :=
  mkProcessedLineData [] (LineTokens_createEmpty [] (scoped_languageIdCodec scopedLineTokens)).

(** Lines 139-177. *)
Definition _getProcessedPreviousLine (range : Range) (scopedLineTokens : ScopedLineTokens)
    : ProcessedLineData :=
  let previousLineNumber := Z.pos (startLineNumber range) - 1 in
  let isFirstLine := previousLineNumber =? 0 in
  if isFirstLine then nullProcessedData scopedLineTokens
  else
    let canScopeExtendOnPreviousLine := doesScopeStartAtOffsetZero scopedLineTokens in
    if negb canScopeExtendOnPreviousLine then nullProcessedData scopedLineTokens
    else
      let scopedLineTokensAtEndColumnOfPreviousLine :=
        getScopedLineTokensAtEndColumnOfLine previousLineNumber in
      let doesLanguageContinueOnPreviousLine :=
        String.eqb (languageId scopedLineTokens)
                   (languageId scopedLineTokensAtEndColumnOfPreviousLine) in
      if negb doesLanguageContinueOnPreviousLine then nullProcessedData scopedLineTokens
      else
        let previousSlicedLineTokens :=
          getSlicedLineTokensForScopeAtLine scopedLineTokensAtEndColumnOfPreviousLine
                                            previousLineNumber in
        getProcessedLineAndTokens previousSlicedLineTokens.

End Processor.

(** *** Vocabulary of the properties *)

(** The end-offsets of a token table, token by token. *)
Definition endOffsets (t : LineTokens) : list Z :=
  map (getEndOffset t) (seq 0 (getCount t)).

(** The sum of the differences of consecutive end-offsets, the first one
    being taken from 0: the sum of the token lengths. *)
Definition sumOfTokenLengths (t : LineTokens) : Z :=
  fold_right Z.add 0
    (map (fun tokenIndex => getEndOffset t tokenIndex - getStartOffset t tokenIndex)
         (seq 0 (getCount t))).

(** Every bracket string has at most one code unit. *)
Definition singleUnitBrackets (bs : list JSString) : Prop :=
  forall b, In b bs -> (length b <= 1)%nat.

(** A code unit survives the removal of the single-unit strings [units]. *)
Definition survives (units : JSString) (c : N) : bool :=
  negb (existsb (N.eqb c) units).

(** The number of code units that the loop removes from one token, and from
    the tokens before a given one. *)
Definition removedFrom (TokenMetadata_getTokenType : Z -> StandardTokenType)
    (openBrackets closedBrackets : list JSString) (tokens : LineTokens)
    (tokenIndex : nat) : Z :=
  if isTokenTypeToProcess (getStandardTokenType TokenMetadata_getTokenType tokens tokenIndex)
  then jsLength (getTokenText tokens tokenIndex)
       - jsLength (removeBracketsFromText openBrackets closedBrackets
                     (getTokenText tokens tokenIndex))
  else 0.

Definition removedBefore (TokenMetadata_getTokenType : Z -> StandardTokenType)
    (openBrackets closedBrackets : list JSString) (tokens : LineTokens)
    (tokenIndex : nat) : Z :=
  fold_right Z.add 0
    (map (removedFrom TokenMetadata_getTokenType openBrackets closedBrackets tokens)
         (seq 0 tokenIndex)).

(** *** Examples *)

(** A metadata layout for the examples: the language id in the low 8 bits,
    the standard token type in the next 2 bits. *)
Definition exampleTokenType (metadata : Z) : StandardTokenType :=
  match Z.shiftr (Z.land metadata 768) 8 with
  | 0 => TokenOther
  | 1 => TokenComment
  | 2 => TokenString
  | _ => TokenRegEx
  end.

Definition exampleLanguageId (metadata : Z) : Z := Z.land metadata 255.

Definition exampleCodec : LanguageIdCodec :=
  fun id => if id =? 1 then "javascript"%string else "html"%string.

Definition otherMetadata : Z := 1.
Definition commentMetadata : Z := 257.
Definition stringMetadata : Z := 513.

(** Brackets [{open:["("], close:[")"]}] for every language. *)
Definition parenthesisConfiguration : string -> ResolvedLanguageConfiguration :=
  fun _ =>
    mkResolvedLanguageConfiguration
      (Some (mkRichEditBrackets [mkRichEditBracket [str "("] [str ")"]])).

(** No bracket configuration at all. *)
Definition noBracketConfiguration : string -> ResolvedLanguageConfiguration :=
  fun _ => mkResolvedLanguageConfiguration None.

(** The brackets ["<!--", "-->"] and ["<", ">"] of a markup language, in
    both orders. *)
Definition markupBrackets : RichEditBrackets :=
  mkRichEditBrackets [mkRichEditBracket [str "<!--"] [str "-->"];
                      mkRichEditBracket [str "<"] [str ">"]].

Definition markupBracketsSwapped : RichEditBrackets :=
  mkRichEditBrackets [mkRichEditBracket [str "<"] [str ">"];
                      mkRichEditBracket [str "<!--"] [str "-->"]].

Definition markupConfiguration : string -> ResolvedLanguageConfiguration :=
  fun _ => mkResolvedLanguageConfiguration (Some markupBrackets).

Definition markupConfigurationSwapped : string -> ResolvedLanguageConfiguration :=
  fun _ => mkResolvedLanguageConfiguration (Some markupBracketsSwapped).

(** Round and square brackets, in both orders. *)
Definition roundSquareBrackets : RichEditBrackets :=
  mkRichEditBrackets [mkRichEditBracket [str "("] [str ")"];
                      mkRichEditBracket [str "["] [str "]"]].

Definition squareRoundBrackets : RichEditBrackets :=
  mkRichEditBrackets [mkRichEditBracket [str "["] [str "]"];
                      mkRichEditBracket [str "("] [str ")"]].

Definition roundSquareConfiguration : string -> ResolvedLanguageConfiguration :=
  fun _ => mkResolvedLanguageConfiguration (Some roundSquareBrackets).

Definition squareRoundConfiguration : string -> ResolvedLanguageConfiguration :=
  fun _ => mkResolvedLanguageConfiguration (Some squareRoundBrackets).

(** A line made of the single String token [a(b)c]. *)
Definition stringTokenLine : LineTokens :=
  mkLineTokens [5; stringMetadata] (str "a(b)c") exampleCodec.

(** The String token [a(b)c] followed by the ordinary token [xyz]. *)
Definition stringThenOtherLine : LineTokens :=
  mkLineTokens [5; stringMetadata; 8; otherMetadata] (str "a(b)cxyz") exampleCodec.

(** A line made of the single Comment token [<!--x-->]. *)
Definition commentTokenLine : LineTokens :=
  mkLineTokens [8; commentMetadata] (str "<!--x-->") exampleCodec.

(** A two-line model for the examples: every line is [stringThenOtherLine],
    a scope is the whole line in the language of its first token, slicing a
    whole line gives the line, and the empty token table has no token. *)
Definition exampleLineTokens : Z -> LineTokens := fun _ => stringThenOtherLine.
Definition exampleLineMaxColumn : Z -> Z := fun _ => 9.
Definition exampleCreateScopedLineTokens : LineTokens -> Z -> ScopedLineTokens :=
  fun lineTokens _ =>
    mkScopedLineTokens (languageIdCodec lineTokens)
      (languageIdCodec lineTokens (exampleLanguageId (getMetadata lineTokens 0)))
      lineTokens 0 (jsLength (getLineContent lineTokens)).
Definition exampleSliceAndInflate : LineTokens -> Z -> Z -> Z -> LineTokens :=
  fun lineTokens _ _ _ => lineTokens.
Definition exampleCreateEmpty : JSString -> LanguageIdCodec -> LineTokens :=
  fun lineContent codec => mkLineTokens [] lineContent codec.

(** *** The other methods of the file *)

(** [String.prototype.substring] with one argument: up to the end. *)
Definition substringFrom (s : JSString) (indexStart : Z) : JSString :=
  substring s indexStart (jsLength s).

(** The four tests of [IndentRulesSupport]
    (vs/editor/common/languages/supports/indentRules), each on a line text. *)
Record IndentRulesSupport := mkIndentRulesSupport {
  shouldIncrease : JSString -> bool;
  shouldDecrease : JSString -> bool;
  shouldIgnore : JSString -> bool;
  shouldIndentNextLine : JSString -> bool
}.

(** Lines 97-101: the three fragments around a range. *)
Record ProcessedContext := mkProcessedContext {
  beforeRangeProcessedData : ProcessedLineData;
  afterRangeProcessedData : ProcessedLineData;
  previousLineProcessedData : ProcessedLineData
}.

(** Modelled from the spec: [Range.isEmpty] (vs/editor/common/core/range) is
    not part of the sources; a range is empty when it starts where it ends. *)
Definition Range_isEmpty (range : Range) : bool :=
  Pos.eqb (startLineNumber range) (endLineNumber range)
  && Pos.eqb (startColumn range) (endColumn range).

Section Callers.

Variable TokenMetadata_getTokenType : Z -> StandardTokenType.
Variable TokenMetadata_getLanguageId : Z -> Z.
Variable getLanguageConfiguration : string -> ResolvedLanguageConfiguration.
Variable model_getLineTokens : Z -> LineTokens.
Variable model_getLineMaxColumn : Z -> Z.
Variable createScopedLineTokens : LineTokens -> Z -> ScopedLineTokens.
Variable sliceAndInflate : LineTokens -> Z -> Z -> Z -> LineTokens.
Variable LineTokens_createEmpty : JSString -> LanguageIdCodec -> LineTokens.

(** [strings.getLeadingWhitespace] of vs/base/common/strings and the
    wrapped [IndentRulesSupport] are imported by the source. *)
Variable getLeadingWhitespace : JSString -> JSString.
Variable _indentRulesSupport : IndentRulesSupport.

Local Abbreviation processLineAndTokens :=
  (getProcessedLineAndTokens TokenMetadata_getTokenType TokenMetadata_getLanguageId
     getLanguageConfiguration).

(** Lines 198-202. *)
Definition adjustIndentation (line newIndentation : JSString) : JSString :=
  let currentIndentation := getLeadingWhitespace line in
  let adjustedLine := newIndentation ++ substringFrom line (jsLength currentIndentation) in
  adjustedLine.

(** Lines 195-211; [newIndentation] is [None] when it is [undefined]. *)
Definition getProcessedLine (lineNumber : Z) (newIndentation : option JSString) : JSString :=
  let tokens := model_getLineTokens lineNumber in
  let processedLine := processedLine (processLineAndTokens tokens) in
  match newIndentation with
  | Some indentation => adjustIndentation processedLine indentation
  | None => processedLine
  end.

(** Lines 43-46. *)
Definition ProcessedIndentRulesSupport_shouldIncrease (lineNumber : Z)
    (newIndentation : option JSString) : bool :=
  let processedLine := getProcessedLine lineNumber newIndentation in
  shouldIncrease _indentRulesSupport processedLine.

(** Lines 51-54. *)
Definition ProcessedIndentRulesSupport_shouldDecrease (lineNumber : Z)
    (newIndentation : option JSString) : bool :=
  let processedLine := getProcessedLine lineNumber newIndentation in
  shouldDecrease _indentRulesSupport processedLine.

(** Lines 59-62. *)
Definition ProcessedIndentRulesSupport_shouldIgnore (lineNumber : Z)
    (newIndentation : option JSString) : bool :=
  let processedLine := getProcessedLine lineNumber newIndentation in
  shouldIgnore _indentRulesSupport processedLine.

(** Lines 67-70. *)
Definition ProcessedIndentRulesSupport_shouldIndentNextLine (lineNumber : Z)
    (newIndentation : option JSString) : bool :=
  let processedLine := getProcessedLine lineNumber newIndentation in
  shouldIndentNextLine _indentRulesSupport processedLine.

(** Lines 111-119. *)
Definition _getProcessedTextBeforeRange (range : Range) (scopedLineTokens : ScopedLineTokens)
    : ProcessedLineData :=
  let lineTokens := model_getLineTokens (Z.pos (startLineNumber range)) in
  let columnIndexWithinScope :=
    (Z.pos (startColumn range) - 1) - firstCharOffset scopedLineTokens in
  let firstCharacterOffset := firstCharOffset scopedLineTokens in
  let lastCharacterOffset := firstCharOffset scopedLineTokens + columnIndexWithinScope in
  let slicedTokensBefore :=
    sliceAndInflate lineTokens firstCharacterOffset lastCharacterOffset 0 in
  processLineAndTokens slicedTokensBefore.

(** Lines 121-137. *)
Definition _getProcessedTextAfterRange (range : Range) (scopedLineTokens : ScopedLineTokens)
    : ProcessedLineData :=
  let (columnIndexWithinScope, lineTokens) :=
    if Range_isEmpty range
    then ((Z.pos (startColumn range) - 1) - firstCharOffset scopedLineTokens,
          model_getLineTokens (Z.pos (startLineNumber range)))
    else ((Z.pos (endColumn range) - 1) - firstCharOffset scopedLineTokens,
          model_getLineTokens (Z.pos (endLineNumber range))) in
  let scopedLineContent := scoped_getLineContent scopedLineTokens in
  let firstCharacterOffset := firstCharOffset scopedLineTokens + columnIndexWithinScope in
  let lastCharacterOffset := firstCharOffset scopedLineTokens + jsLength scopedLineContent in
  let slicedTokensAfter :=
    sliceAndInflate lineTokens firstCharacterOffset lastCharacterOffset 0 in
  processLineAndTokens slicedTokensAfter.

(** Lines 97-109. *)
Definition getProcessedContextAroundRange (range : Range) : ProcessedContext :=
  let lineTokens := model_getLineTokens (Z.pos (startLineNumber range)) in
  let scopedLineTokens := createScopedLineTokens lineTokens (Z.pos (startColumn range) - 1) in
  mkProcessedContext
    (_getProcessedTextBeforeRange range scopedLineTokens)
    (_getProcessedTextAfterRange range scopedLineTokens)
    (_getProcessedPreviousLine TokenMetadata_getTokenType TokenMetadata_getLanguageId
       getLanguageConfiguration model_getLineTokens model_getLineMaxColumn
       createScopedLineTokens sliceAndInflate LineTokens_createEmpty
       range scopedLineTokens).

End Callers.

(** *** Vocabulary of the further properties *)

(** The text of a token after the callback: stripped for a String, RegEx or
    Comment token, as it is for the others. *)
Definition processedTokenText (TokenMetadata_getTokenType : Z -> StandardTokenType)
    (openBrackets closedBrackets : list JSString) (tokens : LineTokens)
    (tokenIndex : nat) : JSString :=
  if isTokenTypeToProcess (getStandardTokenType TokenMetadata_getTokenType tokens tokenIndex)
  then removeBracketsFromText openBrackets closedBrackets (getTokenText tokens tokenIndex)
  else getTokenText tokens tokenIndex.

(** [literal] occurs somewhere in [line]. *)
Fixpoint occursIn (literal line : JSString) : bool :=
  startsWith literal line
  || match line with
     | [] => false
     | _ :: rest => occursIn literal rest
     end.

(** The token table is the content of a [Uint32Array] of even length. *)
Definition uint32Table (t : LineTokens) : Prop :=
  Nat.Even (length (_tokens t))
  /\ Forall (fun x => 0 <= x < 4294967296) (_tokens t).

(** Every token lies within the line and does not end before it starts. *)
Definition offsetsWithinLine (t : LineTokens) : Prop :=
  forall tokenIndex, (tokenIndex < getCount t)%nat ->
    0 <= getStartOffset t tokenIndex <= getEndOffset t tokenIndex
    /\ getEndOffset t tokenIndex <= jsLength (_text t).

(** The token texts, one after the other, are the line. *)
Definition tokensCoverLine (t : LineTokens) : Prop :=
  concat (map (getTokenText t) (seq 0 (getCount t))) = _text t.

(** Leading run of spaces and tabs, for the examples. *)
Fixpoint exampleLeadingWhitespace (line : JSString) : JSString :=
  match line with
  | c :: rest =>
      if N.eqb c 32 || N.eqb c 9 then c :: exampleLeadingWhitespace rest else []
  | [] => []
  end.

(** A line made of the ordinary token [if], the String token [ab] and the
    ordinary token [;]. *)
Definition mixedLine : LineTokens :=
  mkLineTokens [2; otherMetadata; 4; stringMetadata; 5; otherMetadata]
               (str "ifab;") exampleCodec.

End IndentationLineProcessor.

(** * Properties of the selector scorer *)

Module SelectorProperties.

Import LanguageSelector.

Section Facts.

Variable matchGlobPattern : Pattern -> string -> bool.
Variable normalize : string -> string.

Local Abbreviation scoreOne := (_scoreOne matchGlobPattern normalize).
Local Abbreviation scoreIn := (scoreOneInOrder matchGlobPattern normalize).
Local Abbreviation scoreSel := (score matchGlobPattern normalize).

(** Case analysis on every test made by the three gates. *)
Ltac split_gates scheme language pattern :=
  destruct scheme as [?s|]; destruct language as [?l|]; destruct pattern as [?p|];
  cbn [schemeGate languageGate patternGate schemeVetoes languageVetoes patternVetoes
       runGates map gateOf];
  repeat match goal with
         | |- context [truthyString ?x] => destruct (truthyString x) eqn:?
         | |- context [truthyPattern ?x] => destruct (truthyPattern x) eqn:?
         | |- context [patternMatches ?a ?b ?c ?d] => destruct (patternMatches a b c d) eqn:?
         | |- context [String.eqb ?x ?y] => destruct (String.eqb x y) eqn:?
         end;
  cbn [runGates negb andb orb].

(** One outcome of the gates, in some order and in the implemented one. *)
Ltac solve_order_case :=
  split;
  [ split; intros; (reflexivity || discriminate || lia)
  | intros [Hhd|Hne]; try reflexivity; try discriminate Hhd;
    exfalso; apply Hne; f_equal;
    match goal with
    | H : String.eqb _ "*" = true |- _ => apply String.eqb_eq in H; exact H
    end ].

Lemma scoreOne_implemented scheme language pattern uri lang :
  scoreOne scheme language pattern uri lang
  = scoreIn implementedOrder scheme language pattern uri lang.
Proof. reflexivity. Qed.

Lemma scoreOne_values scheme language pattern uri lang :
  isScoreValue (scoreOne scheme language pattern uri lang).
Proof.
  unfold _scoreOne, isScoreValue.
  split_gates scheme language pattern; cbn; auto.
Qed.

Lemma scoreOne_veto scheme language pattern uri lang :
  schemeVetoes scheme uri = true
  \/ languageVetoes language lang = true
  \/ patternVetoes matchGlobPattern normalize pattern uri = true ->
  scoreOne scheme language pattern uri lang = 0.
Proof.
  unfold _scoreOne.
  split_gates scheme language pattern; cbn; intros H;
    try reflexivity; repeat (destruct H as [H|H]); discriminate.
Qed.

Lemma scoreString_values s lang sync : isScoreValue (scoreString s lang sync).
Proof.
  unfold scoreString, isScoreValue.
  destruct sync; cbn; [|auto].
  destruct (String.eqb s "*"); [auto|].
  destruct (String.eqb s lang); auto.
Qed.

Lemma max_values a b : isScoreValue a -> isScoreValue b -> isScoreValue (Z.max a b).
Proof. unfold isScoreValue. lia. Qed.

Lemma notebookScoreOf_values nb info :
  isScoreValue (notebookScoreOf matchGlobPattern normalize nb info).
Proof. destruct nb; apply scoreOne_values. Qed.

Lemma scoreFilter_values f uri lang sync info :
  isScoreValue (scoreFilter matchGlobPattern normalize f uri lang sync info).
Proof.
  unfold scoreFilter.
  destruct (negb sync && negb (truthyBool (hasAccessToAllModels f))); [left; reflexivity|].
  destruct (notebook f) as [nb|]; [|apply scoreOne_values].
  destruct (truthyNotebook (Some nb)); [|apply scoreOne_values].
  destruct info as [info|]; [|left; reflexivity].
  cbv zeta.
  destruct (_ =? 0); [left; reflexivity|].
  destruct (_ && _); [apply notebookScoreOf_values|].
  destruct (_ =? 0); [left; reflexivity|].
  apply max_values; [apply notebookScoreOf_values|apply scoreOne_values].
Qed.

Lemma scoreElement_values e uri lang sync info :
  isScoreValue (scoreElement matchGlobPattern normalize e uri lang sync info).
Proof. destruct e; [apply scoreString_values|apply scoreFilter_values]. Qed.

Lemma scoreArray_values scoreOf l :
  (forall e, isScoreValue (scoreOf e)) ->
  forall ret, isScoreValue ret -> isScoreValue (scoreArray scoreOf ret l).
Proof.
  intros Hf. induction l as [|e l IH]; intros ret Hret; cbn; [exact Hret|].
  destruct (Z.eqb_spec (scoreOf e) 10) as [E|E]; [rewrite E; right; right; reflexivity|].
  apply IH. destruct (scoreOf e >? ret); [apply Hf|exact Hret].
Qed.

(** The loop computes the maximum of the accumulator and the scores. *)
Lemma scoreArray_max scoreOf l :
  (forall e, isScoreValue (scoreOf e)) ->
  forall ret, isScoreValue ret ->
  scoreArray scoreOf ret l = Z.max ret (fold_right Z.max 0 (map scoreOf l)).
Proof.
  intros Hf. induction l as [|e l IH]; intros ret Hret; cbn.
  - unfold isScoreValue in Hret. lia.
  - assert (Htail : 0 <= fold_right Z.max 0 (map scoreOf l) <= 10).
    { clear IH. induction l as [|x l IHl]; cbn; [lia|].
      specialize (Hf x). unfold isScoreValue in Hf. lia. }
    pose proof (Hf e) as He. unfold isScoreValue in He, Hret.
    destruct (Z.eqb_spec (scoreOf e) 10) as [E|E]; [lia|].
    rewrite IH.
    + rewrite Z.gtb_ltb. destruct (Z.ltb_spec ret (scoreOf e)); lia.
    + destruct (scoreOf e >? ret); [apply Hf|exact Hret].
Qed.

Lemma scoreArrayTraced_fst scoreOf l :
  forall ret, fst (scoreArrayTraced scoreOf ret l) = scoreArray scoreOf ret l.
Proof.
  induction l as [|e l IH]; intros ret; cbn; [reflexivity|].
  destruct (scoreOf e =? 10); [reflexivity|].
  specialize (IH (if scoreOf e >? ret then scoreOf e else ret)).
  destruct (scoreArrayTraced scoreOf _ l). exact IH.
Qed.

(** The loop stops at the first element that scores 10. *)
Lemma scoreArrayTraced_stops scoreOf before hit after :
  scoreOf hit = 10 ->
  (forall e, In e before -> scoreOf e <> 10) ->
  forall ret, scoreArrayTraced scoreOf ret (before ++ hit :: after) = (10, before ++ [hit]).
Proof.
  intros Hhit. induction before as [|e before IH]; intros Hbefore ret; cbn.
  - rewrite Hhit. reflexivity.
  - destruct (Z.eqb_spec (scoreOf e) 10) as [E|E].
    + exfalso. apply (Hbefore e); [left; reflexivity|exact E].
    + rewrite IH; [reflexivity|]. intros x Hx. apply Hbefore. right. exact Hx.
Qed.

(** Permutations of the three gates. *)
Lemma orders_of_three order :
  Permutation order implementedOrder ->
  In order [[SchemeGate; LanguageGate; PatternGate]; [SchemeGate; PatternGate; LanguageGate];
            [LanguageGate; SchemeGate; PatternGate]; [LanguageGate; PatternGate; SchemeGate];
            [PatternGate; SchemeGate; LanguageGate]; [PatternGate; LanguageGate; SchemeGate]].
Proof.
  intros HP.
  pose proof (Permutation_length HP) as HL.
  assert (HN : NoDup order).
  { apply (Permutation_NoDup (Permutation_sym HP)).
    repeat constructor; cbn; intuition discriminate. }
  destruct order as [|a [|b [|c [|d rest]]]]; try discriminate HL.
  inversion HN as [|? ? Ha HN1]; subst.
  inversion HN1 as [|? ? Hb HN2]; subst.
  cbn in Ha, Hb.
  destruct a, b, c; cbn; intuition congruence.
Qed.

Lemma scoreArray_ext f g l :
  (forall e, f e = g e) -> forall ret, scoreArray f ret l = scoreArray g ret l.
Proof.
  intros E. induction l as [|e l IH]; intros ret; cbn; [reflexivity|].
  rewrite E. destruct (g e =? 10); [reflexivity|apply IH].
Qed.

Lemma scoreArrayTraced_ext f g l :
  (forall e, f e = g e) -> forall ret, scoreArrayTraced f ret l = scoreArrayTraced g ret l.
Proof.
  intros E. induction l as [|e l IH]; intros ret; cbn; [reflexivity|].
  rewrite E. destruct (g e =? 10); [reflexivity|]. rewrite IH. reflexivity.
Qed.

Lemma score_element e uri lang sync info :
  scoreSel (Some (elementAsSelector e)) uri lang sync info
  = scoreElement matchGlobPattern normalize e uri lang sync info.
Proof. destruct e; reflexivity. Qed.

(** The filter branch once the synchronization gate is passed and the
    candidate belongs to a notebook. *)
Lemma scoreFilter_notebook f nb uri lang sync info :
  notebook f = Some nb ->
  truthyNotebook (Some nb) = true ->
  passesSynchronizationGate f sync = true ->
  scoreFilter matchGlobPattern normalize f uri lang sync (Some info)
  = let notebookScore := notebookScoreOf matchGlobPattern normalize nb info in
    let documentScore := scoreOne (scheme f) (language f) (pattern f) uri lang in
    if notebookScore =? 0 then 0
    else if noDocumentField f then notebookScore
    else if documentScore =? 0 then 0
    else Z.max notebookScore documentScore.
Proof.
  intros Hnb Ht Hgate. unfold scoreFilter, passesSynchronizationGate in *.
  rewrite Hnb, Ht.
  replace (negb sync && negb (truthyBool (hasAccessToAllModels f))) with false
    by (destruct sync, (truthyBool (hasAccessToAllModels f)); cbn in *; congruence).
  reflexivity.
Qed.

(** C2 (amended): for a filter with a notebook clause, a candidate without
    notebook association scores 0 and so does a notebook sub-score of 0;
    when the candidate passes the synchronization gate (it is synchronized
    or the filter has hasAccessToAllModels), the score is the notebook
    sub-score if none of scheme/language/pattern is set, 0 if the document
    sub-score is 0, and the maximum of both sub-scores if both are nonzero;
    when the candidate does not pass that gate the score is 0. *)
Theorem C2_notebook_clause f nb uri lang sync :
  notebook f = Some nb ->
  truthyNotebook (Some nb) = true ->
  scoreSel (Some (SelFilter f)) uri lang sync None = 0
  /\ forall info,
       let notebookScore := notebookScoreOf matchGlobPattern normalize nb info in
       let documentScore := scoreOne (scheme f) (language f) (pattern f) uri lang in
       let result := scoreSel (Some (SelFilter f)) uri lang sync (Some info) in
       (notebookScore = 0 -> result = 0)
       /\ (passesSynchronizationGate f sync = false -> result = 0)
       /\ (passesSynchronizationGate f sync = true ->
           (noDocumentField f = true -> result = notebookScore)
           /\ (noDocumentField f = false -> documentScore = 0 -> result = 0)
           /\ (noDocumentField f = false -> notebookScore <> 0 -> documentScore <> 0 ->
               result = Z.max notebookScore documentScore)).
Proof.
  intros Hnb Ht. split.
  - cbn. unfold scoreFilter. rewrite Hnb, Ht. destruct (_ && _); reflexivity.
  - intros info notebookScore documentScore result.
    assert (Hgate0 : passesSynchronizationGate f sync = false -> result = 0).
    { intros Hg. subst result. cbn. unfold scoreFilter, passesSynchronizationGate in *.
      destruct sync, (truthyBool (hasAccessToAllModels f)); cbn in *; congruence. }
    split; [|split; [exact Hgate0|]].
    + intros H0. destruct (passesSynchronizationGate f sync) eqn:Hg; [|auto].
      subst result. cbn. rewrite (scoreFilter_notebook f nb) by assumption.
      cbv zeta. fold notebookScore. rewrite H0. reflexivity.
    + intros Hg.
      assert (E : result
                  = if notebookScore =? 0 then 0
                    else if noDocumentField f then notebookScore
                    else if documentScore =? 0 then 0
                    else Z.max notebookScore documentScore).
      { subst result. cbn. rewrite (scoreFilter_notebook f nb) by assumption. reflexivity. }
      rewrite E. repeat split.
      * intros Hn. rewrite Hn. destruct (Z.eqb_spec notebookScore 0); congruence.
      * intros Hn Hd. rewrite Hn, Hd. destruct (notebookScore =? 0); reflexivity.
      * intros Hn Hns Hds. rewrite Hn.
        destruct (Z.eqb_spec notebookScore 0); [contradiction|].
        destruct (Z.eqb_spec documentScore 0); [contradiction|reflexivity].
Qed.

(** C3: in the single-clause scorer each of scheme, language and pattern is
    a veto gate: when one of them is present (truthy, as the source tests
    it) and fails to match, the score is 0 whatever the other fields are; in particular the filter
    {scheme:"file", language:"rust"} scores 0 against a synchronized "rust"
    candidate whose URI has scheme "http". *)
Theorem C3_veto_gates scheme language pattern uri lang :
  (schemeVetoes scheme uri = true
   \/ languageVetoes language lang = true
   \/ patternVetoes matchGlobPattern normalize pattern uri = true ->
   scoreOne scheme language pattern uri lang = 0)
  /\ (uri_scheme uri = "http"%string ->
      scoreSel (Some (SelFilter (filterOf (Some "rust"%string) (Some "file"%string) None None)))
              uri "rust" true None = 0).
Proof.
  split; [apply scoreOne_veto|].
  intros Hhttp.
  change (scoreOne (Some "file"%string) (Some "rust"%string) None uri "rust" = 0).
  apply scoreOne_veto. left. unfold schemeVetoes. rewrite Hhttp. reflexivity.
Qed.

(** C4: the score of an array selector is the maximum of the scores of its
    elements, 0 for the empty array, and the loop short-circuits: the
    elements evaluated are those up to and including the first one that
    scores 10, and the result is then 10. *)
Theorem C4_array_selector l uri lang sync info :
  let elementScore := fun e => scoreSel (Some (elementAsSelector e)) uri lang sync info in
  scoreSel (Some (SelArray l)) uri lang sync info = fold_right Z.max 0 (map elementScore l)
  /\ fst (scoreArrayTraced elementScore 0 l) = scoreSel (Some (SelArray l)) uri lang sync info
  /\ forall before hit after,
       l = before ++ hit :: after ->
       elementScore hit = 10 ->
       (forall e, In e before -> elementScore e <> 10) ->
       scoreArrayTraced elementScore 0 l = (10, before ++ [hit]).
Proof.
  intros elementScore.
  assert (Hv : forall e, isScoreValue (elementScore e)).
  { intros e. unfold elementScore. rewrite score_element. apply scoreElement_values. }
  assert (Hs : scoreSel (Some (SelArray l)) uri lang sync info = scoreArray elementScore 0 l).
  { cbn. apply scoreArray_ext. intros e. symmetry. apply score_element. }
  split; [|split].
  - rewrite Hs, scoreArray_max by (auto; left; reflexivity).
    assert (0 <= fold_right Z.max 0 (map elementScore l)).
    { clear Hs. induction l; cbn; lia. }
    lia.
  - rewrite Hs. apply scoreArrayTraced_fst.
  - intros before hit after -> Hhit Hbefore. apply scoreArrayTraced_stops; assumption.
Qed.

(** C5 (amended): against a candidate that is not synchronized every plain
    string scores 0 and so does every filter whose hasAccessToAllModels is
    not true; the filter {hasAccessToAllModels:true, language:"*"} scores 5
    against such a candidate when the candidate's language id is not "*",
    and 10 when it is. *)
Theorem C5_non_synchronized uri lang info :
  (forall s, scoreSel (Some (SelString s)) uri lang false info = 0)
  /\ (forall f, hasAccessToAllModels f <> Some true ->
                scoreSel (Some (SelFilter f)) uri lang false info = 0)
  /\ (lang <> "*"%string ->
      scoreSel (Some (SelFilter (filterOf (Some "*"%string) None None (Some true))))
              uri lang false info = 5)
  /\ (lang = "*"%string ->
      scoreSel (Some (SelFilter (filterOf (Some "*"%string) None None (Some true))))
              uri lang false info = 10).
Proof.
  repeat split.
  - intros f Hf. cbn. unfold scoreFilter.
    destruct (hasAccessToAllModels f) as [[|]|]; cbn; congruence.
  - intros Hl.
    change (scoreOne None (Some "*"%string) None uri lang = 5).
    unfold _scoreOne. cbn [runGates schemeGate languageGate patternGate].
    change (truthyString "*") with true. cbv iota.
    destruct (String.eqb_spec "*" lang); [congruence|reflexivity].
  - intros ->. reflexivity.
Qed.

(** C6 (amended): running the scheme, language and pattern gates in any
    order gives 0 exactly when the implemented order gives 0; it gives the
    same score as the implemented order when the scheme gate is run first
    or the scheme is not the wildcard "*". *)
Theorem C6_gate_order scheme language pattern uri lang order :
  Permutation order implementedOrder ->
  (scoreIn order scheme language pattern uri lang = 0
   <-> scoreOne scheme language pattern uri lang = 0)
  /\ (hd_error order = Some SchemeGate \/ scheme <> Some "*"%string ->
      scoreIn order scheme language pattern uri lang
      = scoreOne scheme language pattern uri lang).
Proof.
  intros HP. apply orders_of_three in HP.
  unfold scoreOneInOrder, _scoreOne.
  cbn [In] in HP.
  repeat (destruct HP as [HP|HP]); try contradiction; subst order;
    split_gates scheme language pattern; cbn; solve_order_case.
Qed.

(** C10: whatever the selector (string, filter, array or undefined) and the
    candidate, the score is 0, 5 or 10. *)
Theorem C10_score_values selector uri lang sync info :
  isScoreValue (scoreSel selector uri lang sync info).
Proof.
  destruct selector as [[s|f|l]|]; cbn.
  - apply scoreString_values.
  - apply scoreFilter_values.
  - apply scoreArray_values; [intros e; apply scoreElement_values|left; reflexivity].
  - left; reflexivity.
Qed.

End Facts.

Local Open Scope string_scope.

(** Concrete selectors and candidates. *)

Local Abbreviation score' := (score exampleGlob exampleNormalize).

Lemma C2_notebook_clause_witness :
  let f := filterOf None None (Some (NotebookString "jupyter-notebook")) None in
  let g := filterOf (Some "*") None (Some (NotebookString "jupyter-notebook")) None in
  (notebook f = Some (NotebookString "jupyter-notebook")
   /\ truthyNotebook (Some (NotebookString "jupyter-notebook")) = true)
  /\ score' (Some (SelFilter f)) fileUri "python" true None = 0
  /\ score' (Some (SelFilter f)) fileUri "python" true (Some jupyterInfo) = 10
  /\ score' (Some (SelFilter f)) fileUri "python" false (Some jupyterInfo) = 0
  /\ score' (Some (SelFilter g)) fileUri "python" true (Some jupyterInfo) = Z.max 10 5.
Proof.
  intros f g.
  pose proof (C2_notebook_clause exampleGlob exampleNormalize f
                (NotebookString "jupyter-notebook") fileUri "python" true
                eq_refl eq_refl) as [Hnone Hsync].
  pose proof (C2_notebook_clause exampleGlob exampleNormalize f
                (NotebookString "jupyter-notebook") fileUri "python" false
                eq_refl eq_refl) as [_ Hunsync].
  pose proof (C2_notebook_clause exampleGlob exampleNormalize g
                (NotebookString "jupyter-notebook") fileUri "python" true
                eq_refl eq_refl) as [_ Hboth].
  split; [split; reflexivity|].
  split; [exact Hnone|].
  split; [exact (proj1 (proj2 (proj2 (Hsync jupyterInfo)) eq_refl) eq_refl)|].
  split; [exact (proj1 (proj2 (Hunsync jupyterInfo)) eq_refl)|].
  refine (proj2 (proj2 (proj2 (proj2 (Hboth jupyterInfo)) eq_refl)) eq_refl _ _);
    vm_compute; discriminate.
Defined.

(** The filter {notebook:"jupyter-notebook"} sets none of
    scheme/language/pattern and its notebook sub-score against a Jupyter
    notebook is 10, yet it scores 0 when the candidate is not synchronized. *)
Lemma C2_notebook_clause_counterexample :
  let f := filterOf None None (Some (NotebookString "jupyter-notebook")) None in
  truthyNotebook (notebook f) = true
  /\ noDocumentField f = true
  /\ notebookScoreOf exampleGlob exampleNormalize
       (NotebookString "jupyter-notebook") jupyterInfo = 10
  /\ score' (Some (SelFilter f)) fileUri "python" false (Some jupyterInfo) = 0
  /\ score' (Some (SelFilter f)) fileUri "python" false (Some jupyterInfo)
     <> notebookScoreOf exampleGlob exampleNormalize
          (NotebookString "jupyter-notebook") jupyterInfo.
Proof. vm_compute. repeat split; discriminate. Qed.

Lemma C3_veto_gates_witness :
  (schemeVetoes (Some "file") httpUri = true /\ uri_scheme httpUri = "http")
  /\ _scoreOne exampleGlob exampleNormalize (Some "file") (Some "rust") None httpUri "rust" = 0
  /\ score' (Some (SelFilter (filterOf (Some "rust") (Some "file") None None)))
            httpUri "rust" true None = 0.
Proof.
  pose proof (C3_veto_gates exampleGlob exampleNormalize
                (Some "file") (Some "rust") None httpUri "rust") as [Hveto Hhttp].
  split; [split; reflexivity|].
  split; [apply Hveto; left; reflexivity|apply Hhttp; reflexivity].
Defined.

Lemma C4_array_selector_witness :
  let l := [ElemString "python"; ElemString "rust"; ElemString "*"] in
  let elementScore :=
    fun e => score' (Some (elementAsSelector e)) fileUri "rust" true None in
  (l = ([ElemString "python"] ++ ElemString "rust" :: [ElemString "*"])%list
   /\ elementScore (ElemString "rust") = 10
   /\ forall e, In e [ElemString "python"] -> elementScore e <> 10)
  /\ scoreArrayTraced elementScore 0 l = (10, [ElemString "python"; ElemString "rust"]).
Proof.
  intros l elementScore.
  assert (Hbefore : forall e, In e [ElemString "python"] -> elementScore e <> 10).
  { intros e [<-|[]]. vm_compute. discriminate. }
  split; [repeat split; exact Hbefore|].
  exact (proj2 (proj2 (C4_array_selector exampleGlob exampleNormalize l fileUri "rust" true None))
           [ElemString "python"] (ElemString "rust") [ElemString "*"]
           eq_refl eq_refl Hbefore).
Defined.

Lemma C5_non_synchronized_witness :
  (hasAccessToAllModels (filterOf (Some "*") None None None) <> Some true
   /\ "rust" <> "*")
  /\ score' (Some (SelFilter (filterOf (Some "*") None None None))) fileUri "rust" false None = 0
  /\ score' (Some (SelFilter (filterOf (Some "*") None None (Some true))))
            fileUri "rust" false None = 5.
Proof.
  pose proof (C5_non_synchronized exampleGlob exampleNormalize fileUri "rust" None)
    as [_ [Hfilter [Hfive _]]].
  assert (H1 : hasAccessToAllModels (filterOf (Some "*") None None None) <> Some true)
    by discriminate.
  assert (H2 : "rust" <> "*") by discriminate.
  split; [split; assumption|].
  split; [apply Hfilter; exact H1|apply Hfive; exact H2].
Defined.

(** Against the non-synchronized candidate whose language id is "*", the
    filter {hasAccessToAllModels:true, language:"*"} scores 10, not 5: the
    exact comparison of line 120 comes before the wildcard of line 122. *)
Lemma C5_non_synchronized_counterexample :
  score' (Some (SelFilter (filterOf (Some "*") None None (Some true))))
         fileUri "*" false None = 10
  /\ score' (Some (SelFilter (filterOf (Some "*") None None (Some true))))
            fileUri "*" false None <> 5.
Proof. vm_compute. split; [reflexivity|discriminate]. Qed.

Lemma C6_gate_order_witness :
  (Permutation [SchemeGate; PatternGate; LanguageGate] implementedOrder
   /\ hd_error [SchemeGate; PatternGate; LanguageGate] = Some SchemeGate)
  /\ scoreOneInOrder exampleGlob exampleNormalize [SchemeGate; PatternGate; LanguageGate]
       (Some "*") (Some "rust") None fileUri "rust"
     = _scoreOne exampleGlob exampleNormalize (Some "*") (Some "rust") None fileUri "rust".
Proof.
  assert (HP : Permutation [SchemeGate; PatternGate; LanguageGate] implementedOrder).
  { apply perm_skip. apply perm_swap. }
  split; [split; [exact HP|reflexivity]|].
  apply (proj2 (C6_gate_order exampleGlob exampleNormalize
                  (Some "*") (Some "rust") None fileUri "rust" _ HP)).
  left. reflexivity.
Defined.

(** With the filter {scheme:"*", language:"rust"} and a "rust" candidate, the
    implemented order gives 10 (the scheme wildcard sets 5, the language
    then sets 10), the order language, scheme, pattern gives 5 (the scheme
    wildcard overwrites the 10 of the language). *)
Lemma C6_gate_order_counterexample :
  Permutation [LanguageGate; SchemeGate; PatternGate] implementedOrder
  /\ _scoreOne exampleGlob exampleNormalize (Some "*") (Some "rust") None fileUri "rust" = 10
  /\ scoreOneInOrder exampleGlob exampleNormalize [LanguageGate; SchemeGate; PatternGate]
       (Some "*") (Some "rust") None fileUri "rust" = 5
  /\ scoreOneInOrder exampleGlob exampleNormalize [LanguageGate; SchemeGate; PatternGate]
       (Some "*") (Some "rust") None fileUri "rust"
     <> _scoreOne exampleGlob exampleNormalize (Some "*") (Some "rust") None fileUri "rust".
Proof.
  split; [apply perm_swap|].
  vm_compute. repeat split; discriminate.
Qed.

(** ** Further properties of the scorer *)

Section MoreFacts.

Variable matchGlobPattern : Pattern -> string -> bool.
Variable normalize : string -> string.

Local Abbreviation scoreOne := (_scoreOne matchGlobPattern normalize).
Local Abbreviation scoreSel := (score matchGlobPattern normalize).
Local Abbreviation elementScore :=
  (fun uri lang sync info e =>
     scoreElement matchGlobPattern normalize e uri lang sync info).

Ltac split_fields scheme language pattern :=
  destruct scheme as [?s|]; destruct language as [?l|]; destruct pattern as [?p|];
  cbn [schemeGate languageGate patternGate schemeVetoes languageVetoes patternVetoes
       schemeExact languageExact truthy runGates];
  try change (truthyPattern None) with false;
  repeat match goal with
         | |- context [truthyString ?x] => destruct (truthyString x) eqn:?
         | |- context [truthyPattern ?x] => destruct (truthyPattern x) eqn:?
         | |- context [patternMatches ?a ?b ?c ?d] => destruct (patternMatches a b c d) eqn:?
         | |- context [String.eqb ?x ?y] => destruct (String.eqb x y) eqn:?
         end;
  cbn [runGates negb andb orb].

(** The single-clause scorer computes its closed form: 0 if a set field fails
    to match or nothing is set, 10 if nothing fails and the scheme or the
    language equals the candidate's or a pattern is set, 5 if nothing fails and
    only wildcards are set. *)
Theorem scoreOne_closed_form scheme language pattern uri lang :
  scoreOne scheme language pattern uri lang
  = scoreOneClosedForm matchGlobPattern normalize scheme language pattern uri lang.
Proof.
  unfold _scoreOne, scoreOneClosedForm, anyVeto.
  split_fields scheme language pattern; reflexivity.
Qed.

(** The score of a clause is nonzero exactly when no set field fails to match
    and at least one of scheme, language and pattern is set. *)
Theorem scoreOne_nonzero_iff scheme language pattern uri lang :
  scoreOne scheme language pattern uri lang <> 0
  <-> anyVeto matchGlobPattern normalize scheme language pattern uri lang = false
      /\ (truthy scheme || truthy language || truthyPattern pattern = true).
Proof.
  unfold _scoreOne, anyVeto.
  split_fields scheme language pattern;
    (split; [intros H; (split; [reflexivity|reflexivity]) || (exfalso; apply H; reflexivity)
            |intros [H1 H2]; (discriminate || (cbn; lia))]).
Qed.

(** The short-hand of lines 54-56: a non-empty plain string [s] scores like
    the filter {language: s}, except for the string "*" against the language
    id "*". *)
Theorem string_desugars_to_language_filter (s : string) uri lang sync info :
  truthyString s = true ->
  (s <> "*"%string \/ lang <> "*"%string) ->
  score matchGlobPattern normalize (Some (SelString s)) uri lang sync info
  = score matchGlobPattern normalize (Some (SelFilter (filterOf (Some s) None None None))) uri lang sync info.
Proof.
  intros Hs Hstar.
  change (scoreString s lang sync
          = scoreFilter matchGlobPattern normalize (filterOf (Some s) None None None)
              uri lang sync info).
  unfold scoreString, scoreFilter, filterOf.
  cbn [hasAccessToAllModels notebook scheme language pattern truthyBool negb].
  destruct sync; cbn [negb andb]; [|reflexivity].
  unfold _scoreOne. cbn [runGates schemeGate languageGate patternGate]. rewrite Hs.
  destruct (String.eqb_spec s "*") as [E1|N1]; destruct (String.eqb_spec s lang) as [E2|N2];
    cbn; try reflexivity.
  exfalso. destruct Hstar as [H|H]; [exact (H E1)|apply H; congruence].
Qed.

Lemma fold_max_permutation (f : SelectorElement -> Z) l l' :
  Permutation l l' -> fold_right Z.max 0 (map f l) = fold_right Z.max 0 (map f l').
Proof.
  induction 1 as [|x l l' _ IH|x y l|l l' l'' _ IH1 _ IH2]; cbn; lia.
Qed.

Lemma fold_max_app (f : SelectorElement -> Z) l l' :
  fold_right Z.max 0 (map f (l ++ l'))
  = Z.max (fold_right Z.max 0 (map f l)) (fold_right Z.max 0 (map f l')).
Proof.
  induction l as [|x l IH]; cbn.
  - assert (forall k, fold_right Z.max 0 (map f k) >= 0) as Hk
        by (induction k; cbn; lia).
    specialize (Hk l'). lia.
  - rewrite IH. lia.
Qed.

Lemma score_array_is_max l uri lang sync info :
  scoreSel (Some (SelArray l)) uri lang sync info
  = fold_right Z.max 0 (map (elementScore uri lang sync info) l).
Proof.
  cbn [score].
  rewrite SelectorProperties.scoreArray_max
    by (try (intros e; apply SelectorProperties.scoreElement_values); left; reflexivity).
  assert (0 <= fold_right Z.max 0 (map (elementScore uri lang sync info) l))
    by (induction l; cbn; lia).
  cbn beta in *. lia.
Qed.

(** The score of an array selector does not depend on the order of its
    elements. *)
Theorem array_order_irrelevant l l' uri lang sync info :
  Permutation l l' ->
  score matchGlobPattern normalize (Some (SelArray l)) uri lang sync info
  = score matchGlobPattern normalize (Some (SelArray l')) uri lang sync info.
Proof.
  intros HP. rewrite !score_array_is_max. apply fold_max_permutation. exact HP.
Qed.

(** Concatenating two array selectors gives the larger of their scores; in
    particular an array of one element scores like the element. *)
Theorem array_concatenation l l' e uri lang sync info :
  score matchGlobPattern normalize (Some (SelArray (l ++ l'))) uri lang sync info
  = Z.max (score matchGlobPattern normalize (Some (SelArray l)) uri lang sync info)
          (score matchGlobPattern normalize (Some (SelArray l')) uri lang sync info)
  /\ score matchGlobPattern normalize (Some (SelArray [e])) uri lang sync info
     = score matchGlobPattern normalize (Some (elementAsSelector e)) uri lang sync info.
Proof.
  split.
  - rewrite !score_array_is_max. apply fold_max_app.
  - rewrite score_array_is_max. cbn [map fold_right].
    rewrite (SelectorProperties.score_element matchGlobPattern normalize).
    pose proof (SelectorProperties.scoreElement_values matchGlobPattern normalize
                  e uri lang sync info) as Hv.
    unfold isScoreValue in Hv. lia.
Qed.

Lemma scoreFilter_synchronized_le f uri lang info :
  scoreFilter matchGlobPattern normalize f uri lang false info
  <= scoreFilter matchGlobPattern normalize f uri lang true info.
Proof.
  pose proof (SelectorProperties.scoreFilter_values matchGlobPattern normalize
                f uri lang true info) as Hv.
  unfold isScoreValue in Hv.
  unfold scoreFilter in *. cbn [negb andb] in *.
  destruct (truthyBool (hasAccessToAllModels f)); cbn [negb] in *; lia.
Qed.

(** A candidate that is not synchronized never scores higher than the same
    candidate synchronized. *)
Theorem synchronized_scores_at_least selector uri lang info :
  score matchGlobPattern normalize selector uri lang false info <= score matchGlobPattern normalize selector uri lang true info.
Proof.
  assert (He : forall e, elementScore uri lang false info e <= elementScore uri lang true info e).
  { intros [s|f]; cbn [scoreElement].
    - pose proof (SelectorProperties.scoreString_values s lang true) as Hv.
      unfold isScoreValue, scoreString in *. cbn [negb] in *. lia.
    - apply scoreFilter_synchronized_le. }
  destruct selector as [[s|f|l]|].
  - apply (He (ElemString s)).
  - apply (He (ElemFilter f)).
  - rewrite !score_array_is_max. induction l as [|e l IH]; cbn [map fold_right]; [lia|].
    specialize (He e). cbn beta in *. lia.
  - cbn. lia.
Qed.

(** For a filter with hasAccessToAllModels:true the score does not depend on
    whether the candidate is synchronized. *)
Theorem access_to_all_models_ignores_synchronization f uri lang sync info :
  hasAccessToAllModels f = Some true ->
  score matchGlobPattern normalize (Some (SelFilter f)) uri lang sync info
  = score matchGlobPattern normalize (Some (SelFilter f)) uri lang true info.
Proof.
  intros H. cbn [score]. unfold scoreFilter. rewrite H. cbn [truthyBool negb].
  rewrite andb_false_r. reflexivity.
Qed.

End MoreFacts.

Lemma scoreOne_nonzero_iff_witness :
  (anyVeto exampleGlob exampleNormalize (Some "*") None None fileUri "rust" = false
   /\ truthy (Some "*") || truthy None || truthyPattern None = true)
  /\ _scoreOne exampleGlob exampleNormalize (Some "*") None None fileUri "rust" <> 0.
Proof.
  assert (H : anyVeto exampleGlob exampleNormalize (Some "*") None None fileUri "rust" = false
              /\ truthy (Some "*") || truthy None || truthyPattern None = true)
    by (split; reflexivity).
  split; [exact H|].
  exact (proj2 (scoreOne_nonzero_iff exampleGlob exampleNormalize
                  (Some "*") None None fileUri "rust") H).
Defined.

Lemma string_desugars_to_language_filter_witness :
  (truthyString "rust" = true /\ ("rust" <> "*" \/ "rust" <> "*"))
  /\ score' (Some (SelString "rust")) fileUri "rust" true None
     = score' (Some (SelFilter (filterOf (Some "rust") None None None)))
              fileUri "rust" true None.
Proof.
  assert (H : "rust" <> "*") by discriminate.
  split; [split; [reflexivity|left; exact H]|].
  exact (string_desugars_to_language_filter exampleGlob exampleNormalize
           "rust" fileUri "rust" true None eq_refl (or_introl H)).
Defined.

Lemma array_order_irrelevant_witness :
  Permutation [ElemString "python"; ElemString "*"] [ElemString "*"; ElemString "python"]
  /\ score' (Some (SelArray [ElemString "python"; ElemString "*"])) fileUri "rust" true None
     = score' (Some (SelArray [ElemString "*"; ElemString "python"])) fileUri "rust" true None.
Proof.
  assert (HP : Permutation [ElemString "python"; ElemString "*"]
                           [ElemString "*"; ElemString "python"]) by apply perm_swap.
  split; [exact HP|].
  exact (array_order_irrelevant exampleGlob exampleNormalize _ _ fileUri "rust" true None HP).
Defined.

Lemma access_to_all_models_ignores_synchronization_witness :
  hasAccessToAllModels (filterOf (Some "rust") None None (Some true)) = Some true
  /\ score' (Some (SelFilter (filterOf (Some "rust") None None (Some true))))
            fileUri "rust" false None
     = score' (Some (SelFilter (filterOf (Some "rust") None None (Some true))))
              fileUri "rust" true None.
Proof.
  split; [reflexivity|].
  exact (access_to_all_models_ignores_synchronization exampleGlob exampleNormalize
           (filterOf (Some "rust") None None (Some true)) fileUri "rust" false None eq_refl).
Defined.

End SelectorProperties.

(** * Properties of the indentation line processor *)

Module ProcessorProperties.

Import IndentationLineProcessor.

Section Removal.

(** The regular expression built from an escaped bracket denotes the
    bracket itself. *)
Lemma regexLiteral_escape (bracket : JSString) :
  regexLiteral (escapeStringForRegex bracket) = bracket.
Proof.
  induction bracket as [|c rest IH]; [reflexivity|].
  cbn [escapeStringForRegex flat_map]. fold (escapeStringForRegex rest).
  unfold escapeCharacterForRegex.
  destruct (isRegexSpecial c) eqn:Hspecial.
  - cbn. rewrite IH. reflexivity.
  - cbn [app regexLiteral].
    destruct (N.eqb_spec c backslash) as [->|_].
    + vm_compute in Hspecial. discriminate.
    + rewrite IH. reflexivity.
Qed.

Lemma removeLiteralFrom_unit (x : N) (line : JSString) :
  removeLiteralFrom [x] 0 line = filter (fun c => negb (N.eqb x c)) line.
Proof.
  induction line as [|c rest IH]; [reflexivity|].
  cbn [removeLiteralFrom startsWith filter length Nat.sub].
  destruct (N.eqb x c); cbn [andb negb]; rewrite IH; reflexivity.
Qed.

Lemma replace_single_unit (bracket line : JSString) :
  (length bracket <= 1)%nat ->
  replaceAllWithEmpty (escapeStringForRegex bracket) line = filter (survives bracket) line.
Proof.
  intros Hlen. unfold replaceAllWithEmpty. rewrite regexLiteral_escape.
  destruct bracket as [|x [|y rest]]; [| |cbn in Hlen; lia].
  - symmetry. apply forallb_filter_id. apply forallb_forall. reflexivity.
  - rewrite removeLiteralFrom_unit. apply filter_ext. intros c.
    unfold survives. cbn. rewrite orb_false_r, N.eqb_sym. reflexivity.
Qed.

Lemma filter_filter {A} (p q : A -> bool) (l : list A) :
  filter p (filter q l) = filter (fun x => q x && p x) l.
Proof.
  induction l as [|x l IH]; [reflexivity|].
  cbn. destruct (q x); cbn; [destruct (p x)|]; rewrite IH; reflexivity.
Qed.

Lemma remove_single_units (bs : list JSString) :
  singleUnitBrackets bs ->
  forall line,
    fold_left (fun processedLine bracket =>
                 replaceAllWithEmpty (escapeStringForRegex bracket) processedLine)
              bs line
    = filter (survives (concat bs)) line.
Proof.
  induction bs as [|b bs IH]; intros Hsingle line.
  - cbn. symmetry. apply forallb_filter_id. apply forallb_forall. reflexivity.
  - cbn [fold_left concat].
    rewrite replace_single_unit by (apply Hsingle; left; reflexivity).
    rewrite IH by (intros x Hx; apply Hsingle; right; exact Hx).
    rewrite filter_filter. apply filter_ext. intros c.
    unfold survives. rewrite existsb_app, negb_orb. reflexivity.
Qed.

Lemma survives_permutation (bs bs' : list JSString) (c : N) :
  Permutation bs bs' -> survives (concat bs) c = survives (concat bs') c.
Proof.
  intros HP. unfold survives. f_equal.
  apply eq_true_iff_eq. rewrite !existsb_exists.
  split; intros [x [Hin Hx]]; exists x; (split; [|exact Hx]);
    apply in_concat in Hin; destruct Hin as [b [Hb Hxb]];
    apply in_concat; exists b; (split; [|exact Hxb]).
  - apply (Permutation_in _ HP). exact Hb.
  - apply (Permutation_in _ (Permutation_sym HP)). exact Hb.
Qed.

Lemma singleUnitBrackets_permutation (bs bs' : list JSString) :
  Permutation bs bs' -> singleUnitBrackets bs -> singleUnitBrackets bs'.
Proof.
  intros HP Hsingle b Hb. apply Hsingle.
  apply (Permutation_in _ (Permutation_sym HP)). exact Hb.
Qed.

(** With single-unit brackets the removal does not depend on the order of
    the two lists. *)
Lemma removeBracketsFromText_permutation (o o' c c' : list JSString) (line : JSString) :
  Permutation o o' -> Permutation c c' ->
  singleUnitBrackets o -> singleUnitBrackets c ->
  removeBracketsFromText o c line = removeBracketsFromText o' c' line.
Proof.
  intros Ho Hc So Sc. unfold removeBracketsFromText.
  rewrite !remove_single_units
    by eauto using singleUnitBrackets_permutation.
  rewrite !filter_filter. apply filter_ext. intros x.
  rewrite (survives_permutation o o') by assumption.
  rewrite (survives_permutation c c') by assumption.
  reflexivity.
Qed.

End Removal.

Section Loop.

Variable TokenMetadata_getTokenType : Z -> StandardTokenType.
Variable TokenMetadata_getLanguageId : Z -> Z.

Local Abbreviation processTokens' :=
  (processTokens TokenMetadata_getTokenType).
Local Abbreviation processToken' :=
  (processToken TokenMetadata_getTokenType).
Local Abbreviation process :=
  (getProcessedLineAndTokens TokenMetadata_getTokenType TokenMetadata_getLanguageId).

(** The loop only depends on the brackets through the removal function. *)
Lemma processTokens_ext (o c o' c' : list JSString) (tokens : LineTokens) :
  (forall line, removeBracketsFromText o c line = removeBracketsFromText o' c' line) ->
  processTokens' o c tokens = processTokens' o' c' tokens.
Proof.
  intros E. unfold processTokens.
  assert (Hfold : forall indices st,
             fold_left (processToken' o c tokens) indices st
             = fold_left (processToken' o' c' tokens) indices st).
  { induction indices as [|i indices IH]; intros st; [reflexivity|].
    cbn [fold_left]. rewrite IH. f_equal.
    unfold processToken. rewrite E. reflexivity. }
  rewrite Hfold. reflexivity.
Qed.

(** State of the loop after the tokens 0, ..., n - 1: the recorded end-offset
    of a token is its original end-offset minus what was removed from the
    tokens before it. *)
Lemma loop_state (o c : list JSString) (tokens : LineTokens) (n : nat) :
  let final := fold_left (processToken' o c tokens) (seq 0 n) (mkLoopState 0 [] []) in
  offset final = removedBefore TokenMetadata_getTokenType o c tokens n
  /\ processedTokensArray final
     = flat_map (fun i => [getEndOffset tokens i
                           - removedBefore TokenMetadata_getTokenType o c tokens i;
                           getMetadata tokens i])
                (seq 0 n)
  /\ jsLength (loop_processedLine final)
     = fold_right Z.add 0
         (map (fun i => jsLength (getTokenText tokens i)
                        - removedFrom TokenMetadata_getTokenType o c tokens i)
              (seq 0 n)).
Proof.
  induction n as [|n IH]; [cbn; auto|].
  rewrite seq_S, fold_left_app. cbn [fold_left Nat.add].
  set (st := fold_left (processToken' o c tokens) (seq 0 n) (mkLoopState 0 [] [])) in *.
  destruct IH as [Hoff [Harr Hlen]].
  assert (Hsum : forall f, fold_right Z.add 0 (map f (seq 0 n ++ [n]))
                           = fold_right Z.add 0 (map f (seq 0 n)) + f n).
  { intros f. generalize (seq 0 n). intros l. induction l as [|x l IHl]; cbn; lia. }
  unfold removedBefore at 1. rewrite seq_S. cbn [Nat.add]. rewrite !Hsum.
  fold (removedBefore TokenMetadata_getTokenType o c tokens n).
  rewrite flat_map_app. cbn [flat_map app].
  assert (Hr : removedFrom TokenMetadata_getTokenType o c tokens n
               = if isTokenTypeToProcess
                      (getStandardTokenType TokenMetadata_getTokenType tokens n)
                 then jsLength (getTokenText tokens n)
                      - jsLength (removeBracketsFromText o c (getTokenText tokens n))
                 else 0) by reflexivity.
  unfold processToken.
  destruct (isTokenTypeToProcess (getStandardTokenType TokenMetadata_getTokenType tokens n));
    cbn [offset processedTokensArray loop_processedLine];
    rewrite Harr, Hoff; unfold jsLength in *; rewrite length_app;
    (split; [lia|split; [reflexivity|lia]]).
Qed.

Variable getLanguageConfiguration : string -> ResolvedLanguageConfiguration.

(** C1 (the code departs from it): with the brackets {open:["("],
    close:[")"]}, the String token [a(b)c] is processed to [abc], but its
    recorded end-offset stays 5: the sum of the token lengths of the processed
    table is 5 while the processed line has 3 code units.  Only the tokens
    after it are shifted: in [a(b)c] followed by [xyz] the end-offsets 5, 8
    become 5, 6. *)
Theorem C1_own_end_offset_not_rebased :
  let single :=
    getProcessedLineAndTokens exampleTokenType exampleLanguageId
      parenthesisConfiguration stringTokenLine in
  let followed :=
    getProcessedLineAndTokens exampleTokenType exampleLanguageId
      parenthesisConfiguration stringThenOtherLine in
  processedLine single = str "abc"
  /\ endOffsets stringTokenLine = [5]
  /\ endOffsets (processedLineTokens single) = [5]
  /\ sumOfTokenLengths (processedLineTokens single) = 5
  /\ jsLength (processedLine single) = 3
  /\ sumOfTokenLengths (processedLineTokens single) <> jsLength (processedLine single)
  /\ processedLine followed = str "abcxyz"
  /\ endOffsets stringThenOtherLine = [5; 8]
  /\ endOffsets (processedLineTokens followed) = [5; 6].
Proof. vm_compute. repeat split. discriminate. Qed.

(** C7 (amended): when every open and close bracket string has at most one
    code unit, two bracket configurations whose flattened open lists and
    flattened close lists are permutations of each other give the same
    processed line and the same processed tokens. *)
Theorem C7_bracket_order (configuration configuration' : string -> ResolvedLanguageConfiguration)
    (tokens : LineTokens) (bs bs' : RichEditBrackets) :
  config_brackets (configuration (getLanguageId TokenMetadata_getLanguageId tokens 0)) = Some bs ->
  config_brackets (configuration' (getLanguageId TokenMetadata_getLanguageId tokens 0)) = Some bs' ->
  Permutation (flat_map open (brackets bs)) (flat_map open (brackets bs')) ->
  Permutation (flat_map close (brackets bs)) (flat_map close (brackets bs')) ->
  singleUnitBrackets (flat_map open (brackets bs)) ->
  singleUnitBrackets (flat_map close (brackets bs)) ->
  process configuration tokens = process configuration' tokens.
Proof.
  intros Hc Hc' Hopen Hclose Sopen Sclose.
  unfold getProcessedLineAndTokens. rewrite Hc, Hc'.
  apply processTokens_ext. intros line.
  apply removeBracketsFromText_permutation; assumption.
Qed.

(** C9: when the language of the tokens has no bracket configuration, the
    processed line is the line content and the processed tokens are the
    tokens that were given. *)
Theorem C9_no_brackets_identity (tokens : LineTokens) :
  config_brackets (getLanguageConfiguration (getLanguageId TokenMetadata_getLanguageId tokens 0))
  = None ->
  process getLanguageConfiguration tokens
  = mkProcessedLineData (getLineContent tokens) tokens.
Proof.
  intros Hnone. unfold getProcessedLineAndTokens. rewrite Hnone. reflexivity.
Qed.

Variable model_getLineTokens : Z -> LineTokens.
Variable model_getLineMaxColumn : Z -> Z.
Variable createScopedLineTokens : LineTokens -> Z -> ScopedLineTokens.
Variable sliceAndInflate : LineTokens -> Z -> Z -> Z -> LineTokens.
Variable LineTokens_createEmpty : JSString -> LanguageIdCodec -> LineTokens.

(** C8: the previous-line fragment is the processed data of the scope at the
    end of the previous line when the previous line number is at least 1,
    the current scope starts at offset 0 and the language id at the end of
    the previous line is the language id of the current scope; when one of
    the three fails it is the empty string with the empty token table. *)
Theorem C8_previous_line (range : Range) (scopedLineTokens : ScopedLineTokens) :
  let previousLineNumber := Z.pos (startLineNumber range) - 1 in
  let previousScope :=
    getScopedLineTokensAtEndColumnOfLine model_getLineTokens model_getLineMaxColumn
      createScopedLineTokens previousLineNumber in
  let allThree :=
    (1 <=? previousLineNumber)
    && doesScopeStartAtOffsetZero scopedLineTokens
    && String.eqb (languageId scopedLineTokens) (languageId previousScope) in
  let fragment :=
    _getProcessedPreviousLine TokenMetadata_getTokenType TokenMetadata_getLanguageId
      getLanguageConfiguration model_getLineTokens model_getLineMaxColumn
      createScopedLineTokens sliceAndInflate LineTokens_createEmpty
      range scopedLineTokens in
  (allThree = true ->
   fragment
   = process getLanguageConfiguration
       (getSlicedLineTokensForScopeAtLine model_getLineTokens sliceAndInflate
          previousScope previousLineNumber))
  /\ (allThree = false ->
      fragment
      = mkProcessedLineData []
          (LineTokens_createEmpty [] (scoped_languageIdCodec scopedLineTokens))).
Proof.
  intros previousLineNumber previousScope allThree fragment.
  subst fragment allThree. unfold _getProcessedPreviousLine, nullProcessedData.
  fold previousLineNumber. fold previousScope.
  assert (Hpos : 0 <= previousLineNumber) by (subst previousLineNumber; lia).
  destruct (Z.eqb_spec previousLineNumber 0) as [E0|N0];
    destruct (Z.leb_spec 1 previousLineNumber); try lia;
    destruct (doesScopeStartAtOffsetZero scopedLineTokens);
    destruct (String.eqb (languageId scopedLineTokens) (languageId previousScope));
    cbn [andb negb]; split; intros Hcase; (reflexivity || discriminate Hcase).
Qed.

End Loop.

Lemma C7_bracket_order_witness :
  (config_brackets (roundSquareConfiguration
                      (getLanguageId exampleLanguageId stringTokenLine 0))
   = Some roundSquareBrackets
   /\ config_brackets (squareRoundConfiguration
                         (getLanguageId exampleLanguageId stringTokenLine 0))
      = Some squareRoundBrackets
   /\ Permutation (flat_map open (brackets roundSquareBrackets))
                  (flat_map open (brackets squareRoundBrackets))
   /\ Permutation (flat_map close (brackets roundSquareBrackets))
                  (flat_map close (brackets squareRoundBrackets))
   /\ singleUnitBrackets (flat_map open (brackets roundSquareBrackets))
   /\ singleUnitBrackets (flat_map close (brackets roundSquareBrackets)))
  /\ getProcessedLineAndTokens exampleTokenType exampleLanguageId
       roundSquareConfiguration stringTokenLine
     = getProcessedLineAndTokens exampleTokenType exampleLanguageId
         squareRoundConfiguration stringTokenLine.
Proof.
  assert (Hopen : Permutation (flat_map open (brackets roundSquareBrackets))
                              (flat_map open (brackets squareRoundBrackets)))
    by apply perm_swap.
  assert (Hclose : Permutation (flat_map close (brackets roundSquareBrackets))
                               (flat_map close (brackets squareRoundBrackets)))
    by apply perm_swap.
  assert (Sopen : singleUnitBrackets (flat_map open (brackets roundSquareBrackets))).
  { intros b [<-|[<-|[]]]; cbn; lia. }
  assert (Sclose : singleUnitBrackets (flat_map close (brackets roundSquareBrackets))).
  { intros b [<-|[<-|[]]]; cbn; lia. }
  split; [repeat split; assumption|].
  exact (C7_bracket_order exampleTokenType exampleLanguageId
           roundSquareConfiguration squareRoundConfiguration stringTokenLine
           roundSquareBrackets squareRoundBrackets
           eq_refl eq_refl Hopen Hclose Sopen Sclose).
Defined.

(** The Comment token [<!--x-->] with the brackets "<!--", "-->" and "<",
    ">": removing "<!--" before "<" leaves [x], removing "<" before "<!--"
    leaves [!--x--]. *)
Lemma C7_bracket_order_counterexample :
  Permutation (flat_map open (brackets markupBrackets))
              (flat_map open (brackets markupBracketsSwapped))
  /\ Permutation (flat_map close (brackets markupBrackets))
                 (flat_map close (brackets markupBracketsSwapped))
  /\ processedLine (getProcessedLineAndTokens exampleTokenType exampleLanguageId
                      markupConfiguration commentTokenLine) = str "x"
  /\ processedLine (getProcessedLineAndTokens exampleTokenType exampleLanguageId
                      markupConfigurationSwapped commentTokenLine) = str "!--x--"
  /\ getProcessedLineAndTokens exampleTokenType exampleLanguageId
       markupConfiguration commentTokenLine
     <> getProcessedLineAndTokens exampleTokenType exampleLanguageId
          markupConfigurationSwapped commentTokenLine.
Proof.
  split; [apply perm_swap|]. split; [apply perm_swap|].
  split; [reflexivity|]. split; [reflexivity|].
  intros H. apply (f_equal processedLine) in H. vm_compute in H. discriminate H.
Qed.

Lemma C8_previous_line_witness :
  let range := mkRange 2 1 2 1 in
  let first := mkRange 1 1 1 1 in
  let scope := exampleCreateScopedLineTokens stringThenOtherLine 0 in
  let fragmentOf :=
    _getProcessedPreviousLine exampleTokenType exampleLanguageId parenthesisConfiguration
      exampleLineTokens exampleLineMaxColumn exampleCreateScopedLineTokens
      exampleSliceAndInflate exampleCreateEmpty in
  processedLine (fragmentOf range scope) = str "abcxyz"
  /\ fragmentOf first scope = mkProcessedLineData [] (exampleCreateEmpty [] exampleCodec).
Proof.
  intros range first scope fragmentOf. unfold fragmentOf. split.
  - rewrite (proj1 (C8_previous_line exampleTokenType exampleLanguageId
                      parenthesisConfiguration exampleLineTokens exampleLineMaxColumn
                      exampleCreateScopedLineTokens exampleSliceAndInflate
                      exampleCreateEmpty range scope) eq_refl).
    reflexivity.
  - exact (proj2 (C8_previous_line exampleTokenType exampleLanguageId
                    parenthesisConfiguration exampleLineTokens exampleLineMaxColumn
                    exampleCreateScopedLineTokens exampleSliceAndInflate
                    exampleCreateEmpty first scope) eq_refl).
Defined.

Lemma C9_no_brackets_identity_witness :
  config_brackets (noBracketConfiguration
                     (getLanguageId exampleLanguageId stringTokenLine 0)) = None
  /\ getProcessedLineAndTokens exampleTokenType exampleLanguageId
       noBracketConfiguration stringTokenLine
     = mkProcessedLineData (str "a(b)c") stringTokenLine.
Proof.
  split; [reflexivity|].
  exact (C9_no_brackets_identity exampleTokenType exampleLanguageId
           noBracketConfiguration stringTokenLine eq_refl).
Defined.

(** ** Further properties of the removal of brackets *)

Section MoreRemoval.

Local Abbreviation removeOne :=
  (fun processedLine bracket =>
     replaceAllWithEmpty (escapeStringForRegex bracket) processedLine).


(** Escaping keeps a text without special characters as it is, and in
    general adds at most one backslash per code unit. *)
Theorem escape_length (text : JSString) :
  (length text <= length (escapeStringForRegex text) <= 2 * length text)%nat
  /\ (forallb (fun c => negb (isRegexSpecial c)) text = true ->
      escapeStringForRegex text = text).
Proof.
  induction text as [|c rest [IHlen IHplain]]; [cbn; split; [lia|reflexivity]|].
  change (escapeStringForRegex (c :: rest))
    with (escapeCharacterForRegex c ++ escapeStringForRegex rest).
  unfold escapeCharacterForRegex. split.
  - rewrite length_app. destruct (isRegexSpecial c); cbn [length]; lia.
  - cbn [forallb]. intros H. apply andb_prop in H. destruct H as [Hc Hrest].
    destruct (isRegexSpecial c); [discriminate Hc|].
    cbn [app]. rewrite IHplain by exact Hrest. reflexivity.
Qed.

Lemma removeLiteralFrom_length (literal : JSString) (line : JSString) :
  forall skip, (length (removeLiteralFrom literal skip line) <= length line)%nat.
Proof.
  induction line as [|c rest IH]; intros skip; [cbn; lia|].
  cbn [removeLiteralFrom].
  destruct skip as [|k].
  - destruct (startsWith literal (c :: rest)).
    + specialize (IH (length literal - 1)%nat). cbn [length]. lia.
    + specialize (IH O). cbn [length]. lia.
  - specialize (IH k). cbn [length]. lia.
Qed.

Lemma replaceAllWithEmpty_length (source line : JSString) :
  (length (replaceAllWithEmpty source line) <= length line)%nat.
Proof.
  unfold replaceAllWithEmpty. destruct (regexLiteral source); [lia|].
  apply removeLiteralFrom_length.
Qed.

Lemma removeAll_length (bs : list JSString) :
  forall line, (length (fold_left removeOne bs line) <= length line)%nat.
Proof.
  induction bs as [|b bs IH]; intros line; cbn [fold_left]; [lia|].
  specialize (IH (replaceAllWithEmpty (escapeStringForRegex b) line)).
  pose proof (replaceAllWithEmpty_length (escapeStringForRegex b) line). lia.
Qed.

Lemma removeBracketsFromText_length (o c : list JSString) (line : JSString) :
  0 <= jsLength (removeBracketsFromText o c line) <= jsLength line.
Proof.
  unfold removeBracketsFromText, jsLength.
  pose proof (removeAll_length c (fold_left removeOne o line)).
  pose proof (removeAll_length o line). cbn beta in *. lia.
Qed.

(** Removing brackets never makes a text longer. *)
Theorem removal_never_lengthens (openBrackets closedBrackets : list JSString)
    (line : JSString) :
  jsLength (removeBracketsFromText openBrackets closedBrackets line) <= jsLength line.
Proof. apply removeBracketsFromText_length. Qed.

Lemma removeLiteralFrom_absent (literal line : JSString) :
  occursIn literal line = false -> removeLiteralFrom literal O line = line.
Proof.
  induction line as [|c rest IH]; [reflexivity|].
  cbn [occursIn removeLiteralFrom]. intros H.
  apply orb_false_elim in H. destruct H as [Hhere Hrest].
  rewrite Hhere, IH by exact Hrest. reflexivity.
Qed.

Lemma removeAll_absent (bs : list JSString) (line : JSString) :
  (forall b, In b bs -> b = [] \/ occursIn b line = false) ->
  fold_left removeOne bs line = line.
Proof.
  induction bs as [|b bs IH]; intros H; [reflexivity|].
  cbn [fold_left].
  assert (Hb : replaceAllWithEmpty (escapeStringForRegex b) line = line).
  { unfold replaceAllWithEmpty. rewrite ProcessorProperties.regexLiteral_escape.
    destruct (H b (or_introl eq_refl)) as [->|Habsent]; [reflexivity|].
    destruct b; [reflexivity|]. apply removeLiteralFrom_absent. exact Habsent. }
  rewrite Hb. apply IH. intros x Hx. apply H. right. exact Hx.
Qed.

(** A text in which no bracket occurs is left as it is. *)
Theorem removal_without_occurrence (openBrackets closedBrackets : list JSString)
    (line : JSString) :
  (forall b, In b (openBrackets ++ closedBrackets) -> b = [] \/ occursIn b line = false) ->
  removeBracketsFromText openBrackets closedBrackets line = line.
Proof.
  intros H. unfold removeBracketsFromText.
  rewrite (removeAll_absent openBrackets)
    by (intros b Hb; apply H; apply in_or_app; left; exact Hb).
  apply removeAll_absent. intros b Hb. apply H. apply in_or_app. right. exact Hb.
Qed.

Lemma removeBracketsFromText_filter (o c : list JSString) (line : JSString) :
  singleUnitBrackets o -> singleUnitBrackets c ->
  removeBracketsFromText o c line = filter (survives (concat (o ++ c))) line.
Proof.
  intros So Sc. unfold removeBracketsFromText.
  rewrite !ProcessorProperties.remove_single_units by assumption.
  rewrite ProcessorProperties.filter_filter. apply filter_ext. intros x.
  unfold survives. rewrite concat_app, existsb_app, negb_orb. reflexivity.
Qed.

(** With brackets of one code unit each, the removal keeps exactly the code
    units that are no bracket, in their order: no bracket is left. *)
Theorem removal_of_single_units (openBrackets closedBrackets : list JSString)
    (line : JSString) :
  singleUnitBrackets openBrackets -> singleUnitBrackets closedBrackets ->
  removeBracketsFromText openBrackets closedBrackets line
  = filter (survives (concat (openBrackets ++ closedBrackets))) line
  /\ forall b unit,
       In b (openBrackets ++ closedBrackets) -> In unit b ->
       ~ In unit (removeBracketsFromText openBrackets closedBrackets line).
Proof.
  intros So Sc. split; [apply removeBracketsFromText_filter; assumption|].
  intros b unit Hb Hunit Hin.
  rewrite removeBracketsFromText_filter in Hin by assumption.
  apply filter_In in Hin. destruct Hin as [_ Hsurvives].
  unfold survives in Hsurvives. apply negb_true_iff in Hsurvives.
  assert (Hex : existsb (N.eqb unit) (concat (openBrackets ++ closedBrackets)) = true).
  { apply existsb_exists. exists unit. split; [|apply N.eqb_refl].
    apply in_concat. exists b. split; assumption. }
  congruence.
Qed.

(** With brackets of one code unit each, removing twice is removing once. *)
Theorem removal_idempotent (openBrackets closedBrackets : list JSString)
    (line : JSString) :
  singleUnitBrackets openBrackets -> singleUnitBrackets closedBrackets ->
  removeBracketsFromText openBrackets closedBrackets
    (removeBracketsFromText openBrackets closedBrackets line)
  = removeBracketsFromText openBrackets closedBrackets line.
Proof.
  intros So Sc. rewrite !removeBracketsFromText_filter by assumption.
  rewrite ProcessorProperties.filter_filter. apply filter_ext. intros x.
  apply andb_diag.
Qed.

End MoreRemoval.

(** ** Further properties of the token loop *)

Section MoreLoop.

Variable TokenMetadata_getTokenType : Z -> StandardTokenType.
Variable TokenMetadata_getLanguageId : Z -> Z.

Local Abbreviation processTokens' := (processTokens TokenMetadata_getTokenType).
Local Abbreviation processToken' := (processToken TokenMetadata_getTokenType).
Local Abbreviation removed := (removedFrom TokenMetadata_getTokenType).
Local Abbreviation removedUpTo := (removedBefore TokenMetadata_getTokenType).
Local Abbreviation textAfter := (processedTokenText TokenMetadata_getTokenType).

(** *** Interleaved tables *)

Lemma pairs_length {A} (a b : nat -> A) (indices : list nat) :
  length (flat_map (fun i => [a i; b i]) indices) = (2 * length indices)%nat.
Proof. induction indices as [|i l IH]; cbn [flat_map length app] in *; lia. Qed.

Lemma pairs_nth (a b : nat -> Z) (n i : nat) :
  (i < n)%nat ->
  nth (2 * i) (flat_map (fun j => [a j; b j]) (seq 0 n)) 0 = a i
  /\ nth (2 * i + 1) (flat_map (fun j => [a j; b j]) (seq 0 n)) 0 = b i.
Proof.
  induction n as [|n IH]; intros Hi; [lia|].
  rewrite seq_S, flat_map_app. cbn [Nat.add flat_map app].
  pose proof (pairs_length a b (seq 0 n)) as Hlen. rewrite length_seq in Hlen.
  destruct (Nat.eq_dec i n) as [->|Hne].
  - rewrite !app_nth2 by lia. rewrite Hlen.
    replace (2 * n - 2 * n)%nat with 0%nat by lia.
    replace (2 * n + 1 - 2 * n)%nat with 1%nat by lia.
    split; reflexivity.
  - rewrite !app_nth1 by lia. apply IH. lia.
Qed.

Lemma pairs_rebuild (n : nat) :
  forall table : list Z,
    length table = (2 * n)%nat ->
    flat_map (fun i => [nth (2 * i) table 0; nth (2 * i + 1) table 0]) (seq 0 n) = table.
Proof.
  induction n as [|n IH]; intros table Hlen.
  - destruct table; [reflexivity|discriminate Hlen].
  - destruct table as [|x [|y rest]]; try (cbn in Hlen; lia).
    change (seq 0 (S n)) with (0%nat :: seq 1 n). cbn [flat_map].
    change (nth (2 * 0) (x :: y :: rest) 0) with x.
    change (nth (2 * 0 + 1) (x :: y :: rest) 0) with y.
    cbn [app]. f_equal. f_equal.
    rewrite <- seq_shift, flat_map_concat_map, map_map, <- flat_map_concat_map.
    transitivity (flat_map (fun i => [nth (2 * i) rest 0; nth (2 * i + 1) rest 0]) (seq 0 n));
      [|apply IH; cbn in Hlen; lia].
    apply flat_map_ext. intros i.
    replace (2 * S i)%nat with (S (S (2 * i))) by lia.
    replace (S (S (2 * i)) + 1)%nat with (S (S (2 * i + 1))) by lia.
    reflexivity.
Qed.

Lemma count_bound (t : LineTokens) (i : nat) :
  (i < getCount t)%nat -> (2 * i + 1 < length (_tokens t))%nat.
Proof.
  unfold getCount. intros Hi.
  pose proof (Nat.div2_odd (length (_tokens t))) as Hodd.
  destruct (Nat.odd (length (_tokens t))); cbn [Nat.b2n] in Hodd; lia.
Qed.

Lemma uint32_entry (t : LineTokens) (k : nat) :
  uint32Table t -> (k < length (_tokens t))%nat ->
  0 <= nth k (_tokens t) 0 < 4294967296.
Proof.
  intros [_ Hrange] Hk. rewrite Forall_forall in Hrange.
  apply Hrange. apply nth_In. exact Hk.
Qed.

Lemma Uint32Array_nth (numbers : list Z) (k : nat) :
  nth k (Uint32Array numbers) 0 = nth k numbers 0 mod 4294967296.
Proof.
  unfold Uint32Array.
  exact (map_nth (fun x => x mod 4294967296) numbers 0 k).
Qed.

Lemma Uint32Array_id (numbers : list Z) :
  Forall (fun x => 0 <= x < 4294967296) numbers -> Uint32Array numbers = numbers.
Proof.
  unfold Uint32Array. induction 1 as [|x l Hx _ IH]; [reflexivity|].
  cbn [map]. rewrite IH, Z.mod_small by exact Hx. reflexivity.
Qed.

(** *** The loop *)

Lemma loop_line (o c : list JSString) (tokens : LineTokens) (n : nat) :
  loop_processedLine
    (fold_left (processToken' o c tokens) (seq 0 n) (mkLoopState 0 [] []))
  = concat (map (textAfter o c tokens) (seq 0 n)).
Proof.
  induction n as [|n IH]; [reflexivity|].
  rewrite seq_S, fold_left_app, map_app, concat_app. cbn [fold_left Nat.add map concat].
  rewrite app_nil_r, <- IH.
  unfold processToken, processedTokenText.
  destruct (isTokenTypeToProcess (getStandardTokenType TokenMetadata_getTokenType tokens n));
    reflexivity.
Qed.

Lemma processed_table (o c : list JSString) (tokens : LineTokens) :
  _tokens (processedLineTokens (processTokens' o c tokens))
  = Uint32Array
      (flat_map (fun i => [getEndOffset tokens i - removedUpTo o c tokens i;
                           getMetadata tokens i])
                (seq 0 (getCount tokens))).
Proof.
  unfold processTokens. cbn [processedLineTokens _tokens].
  destruct (ProcessorProperties.loop_state TokenMetadata_getTokenType o c tokens
              (getCount tokens)) as [_ [Harr _]].
  rewrite Harr. reflexivity.
Qed.

Lemma processed_count (o c : list JSString) (tokens : LineTokens) :
  getCount (processedLineTokens (processTokens' o c tokens)) = getCount tokens.
Proof.
  unfold getCount at 1. rewrite processed_table.
  unfold Uint32Array. rewrite length_map, pairs_length, length_seq.
  apply Nat.div2_double.
Qed.

(** The processed table has as many tokens as the given one, and every token
    keeps its metadata, hence its type and its language. *)
Theorem tokens_keep_count_and_metadata (openBrackets closedBrackets : list JSString)
    (tokens : LineTokens) :
  uint32Table tokens ->
  let processed := processedLineTokens (processTokens' openBrackets closedBrackets tokens) in
  getCount processed = getCount tokens
  /\ forall tokenIndex, (tokenIndex < getCount tokens)%nat ->
       getMetadata processed tokenIndex = getMetadata tokens tokenIndex
       /\ getStandardTokenType TokenMetadata_getTokenType processed tokenIndex
          = getStandardTokenType TokenMetadata_getTokenType tokens tokenIndex
       /\ getLanguageId TokenMetadata_getLanguageId processed tokenIndex
          = getLanguageId TokenMetadata_getLanguageId tokens tokenIndex.
Proof.
  intros Huint processed. split; [apply processed_count|].
  intros i Hi.
  assert (Hmeta : getMetadata processed i = getMetadata tokens i).
  { unfold getMetadata at 1. subst processed. rewrite processed_table, Uint32Array_nth.
    rewrite (proj2 (pairs_nth _ _ _ _ Hi)).
    apply Z.mod_small. apply uint32_entry; [exact Huint|].
    apply count_bound. exact Hi. }
  split; [exact Hmeta|].
  unfold getStandardTokenType, getLanguageId. rewrite Hmeta. split; reflexivity.
Qed.

Lemma recorded_end_offset (o c : list JSString) (tokens : LineTokens) (i : nat) :
  (i < getCount tokens)%nat ->
  getEndOffset (processedLineTokens (processTokens' o c tokens)) i
  = (getEndOffset tokens i - removedUpTo o c tokens i) mod 4294967296.
Proof.
  intros Hi. unfold getEndOffset at 1. rewrite processed_table, Uint32Array_nth.
  rewrite (proj1 (pairs_nth _ _ _ _ Hi)). reflexivity.
Qed.

(** The end-offset recorded for a token is its original end-offset minus the
    number of code units removed from the tokens before it, as an unsigned
    32-bit number. *)
Theorem processed_end_offset (openBrackets closedBrackets : list JSString)
    (tokens : LineTokens) (tokenIndex : nat) :
  (tokenIndex < getCount tokens)%nat ->
  getEndOffset (processedLineTokens (processTokens' openBrackets closedBrackets tokens))
               tokenIndex
  = (getEndOffset tokens tokenIndex
     - removedUpTo openBrackets closedBrackets tokens tokenIndex) mod 4294967296.
Proof. apply recorded_end_offset. Qed.

Lemma removedBefore_zero (o c : list JSString) (tokens : LineTokens) (n : nat) :
  (forall i, (i < n)%nat -> textAfter o c tokens i = getTokenText tokens i) ->
  removedUpTo o c tokens n = 0.
Proof.
  unfold removedBefore. induction n as [|n IH]; intros H; [reflexivity|].
  rewrite seq_S, map_app, fold_right_app. cbn [Nat.add map fold_right].
  assert (Hn : removed o c tokens n = 0).
  { specialize (H n (Nat.lt_succ_diag_r n)).
    unfold removedFrom, processedTokenText in *.
    destruct (isTokenTypeToProcess _); [rewrite H; lia|reflexivity]. }
  rewrite Hn. cbn [Z.add]. apply IH. intros i Hi. apply H. lia.
Qed.

(** When the loop has nothing to remove (no String, RegEx or Comment token,
    or none that holds a bracket), a well-formed line comes back as it was
    given: same text, same token table. *)
Theorem nothing_removed_pass_through (openBrackets closedBrackets : list JSString)
    (tokens : LineTokens) :
  uint32Table tokens ->
  tokensCoverLine tokens ->
  (forall tokenIndex, (tokenIndex < getCount tokens)%nat ->
     textAfter openBrackets closedBrackets tokens tokenIndex
     = getTokenText tokens tokenIndex) ->
  processTokens' openBrackets closedBrackets tokens
  = mkProcessedLineData (getLineContent tokens) tokens.
Proof.
  intros [Heven Hrange] Hcover Hsame.
  assert (Hline : loop_processedLine
                    (fold_left (processToken' openBrackets closedBrackets tokens)
                               (seq 0 (getCount tokens)) (mkLoopState 0 [] []))
                  = _text tokens).
  { rewrite loop_line, <- Hcover. f_equal. apply map_ext_in.
    intros i Hi. apply in_seq in Hi. apply Hsame. lia. }
  assert (Htable : _tokens (processedLineTokens
                              (processTokens' openBrackets closedBrackets tokens))
                   = _tokens tokens).
  { rewrite processed_table.
    assert (Hflat : flat_map (fun i => [getEndOffset tokens i
                                        - removedUpTo openBrackets closedBrackets tokens i;
                                        getMetadata tokens i])
                             (seq 0 (getCount tokens))
                    = _tokens tokens).
    { transitivity
        (flat_map (fun i => [nth (2 * i) (_tokens tokens) 0;
                             nth (2 * i + 1) (_tokens tokens) 0])
                  (seq 0 (getCount tokens))); [|apply pairs_rebuild].
      - rewrite !flat_map_concat_map. f_equal. apply map_ext_in.
        intros i Hi. apply in_seq in Hi.
        rewrite removedBefore_zero by (intros j Hj; apply Hsame; lia).
        unfold getEndOffset, getMetadata. rewrite Z.sub_0_r. reflexivity.
      - unfold getCount. destruct Heven as [m Hm]. rewrite Hm.
        rewrite Nat.div2_double. reflexivity. }
    rewrite Hflat. apply Uint32Array_id. exact Hrange. }
  unfold processTokens in *. cbn [processedLineTokens _tokens] in Htable.
  rewrite Hline, Htable.
  unfold getLineContent. destruct tokens; reflexivity.
Qed.

(** *** The sum of the token lengths and the length of the processed line *)

Lemma sum_app (f : nat -> Z) (l l' : list nat) :
  fold_right Z.add 0 (map f (l ++ l'))
  = fold_right Z.add 0 (map f l) + fold_right Z.add 0 (map f l').
Proof. induction l as [|x l IH]; cbn [app map fold_right]; lia. Qed.

Lemma lengths_telescope (t : LineTokens) (k : nat) :
  fold_right Z.add 0
    (map (fun i => getEndOffset t i - getStartOffset t i) (seq 0 (S k)))
  = getEndOffset t k.
Proof.
  induction k as [|k IH]; [cbn; unfold getEndOffset; lia|].
  rewrite seq_S, sum_app, IH. cbn [Nat.add map fold_right].
  change (getStartOffset t (S k)) with (getEndOffset t k). lia.
Qed.

Lemma substring_length (s : JSString) (a b : Z) :
  0 <= a <= b -> b <= jsLength s -> jsLength (substring s a b) = b - a.
Proof.
  intros Hab Hb. unfold substring, jsLength in *.
  replace (Z.min (Z.max a 0) (Z.of_nat (length s))) with a by lia.
  replace (Z.min (Z.max b 0) (Z.of_nat (length s))) with b by lia.
  replace (Z.max a b) with b by lia. replace (Z.min a b) with a by lia.
  rewrite length_firstn, length_skipn. lia.
Qed.

Lemma removedBefore_succ (o c : list JSString) (tokens : LineTokens) (k : nat) :
  removedUpTo o c tokens (S k) = removedUpTo o c tokens k + removed o c tokens k.
Proof.
  unfold removedBefore. rewrite seq_S, sum_app. cbn [Nat.add map fold_right]. lia.
Qed.

Lemma removed_bounds (o c : list JSString) (tokens : LineTokens) (i : nat) :
  0 <= removed o c tokens i <= jsLength (getTokenText tokens i).
Proof.
  unfold removedFrom.
  pose proof (removeBracketsFromText_length o c (getTokenText tokens i)).
  destruct (isTokenTypeToProcess _); unfold jsLength in *; lia.
Qed.

Lemma removedBefore_bounds (o c : list JSString) (tokens : LineTokens) :
  offsetsWithinLine tokens ->
  forall k, (k <= getCount tokens)%nat ->
    0 <= removedUpTo o c tokens k <= getStartOffset tokens k
    /\ fold_right Z.add 0
         (map (fun i => jsLength (getTokenText tokens i) - removed o c tokens i) (seq 0 k))
       = getStartOffset tokens k - removedUpTo o c tokens k.
Proof.
  intros Hwithin. induction k as [|k IH]; intros Hk; [cbn; lia|].
  destruct IH as [Hbound Hsum]; [lia|].
  destruct (Hwithin k) as [Hstart Hend]; [lia|].
  pose proof (removed_bounds o c tokens k) as Hremoved.
  assert (Hlen : jsLength (getTokenText tokens k)
                 = getEndOffset tokens k - getStartOffset tokens k)
    by (apply substring_length; assumption).
  rewrite removedBefore_succ, seq_S, sum_app, Hsum. cbn [Nat.add map fold_right].
  change (getStartOffset tokens (S k)) with (getEndOffset tokens k).
  split; lia.
Qed.

(** For a well-formed line with at least one token, the sum of the token
    lengths of the processed table is the length of the processed line plus
    the number of code units removed from the last token: the table
    partitions the processed line exactly when nothing is removed from the
    last token. *)
Theorem partition_discrepancy (openBrackets closedBrackets : list JSString)
    (tokens : LineTokens) (last : nat) :
  uint32Table tokens ->
  offsetsWithinLine tokens ->
  getCount tokens = S last ->
  let result := processTokens' openBrackets closedBrackets tokens in
  sumOfTokenLengths (processedLineTokens result)
  = jsLength (processedLine result) + removed openBrackets closedBrackets tokens last.
Proof.
  intros Huint Hwithin Hcount result. subst result.
  unfold sumOfTokenLengths. rewrite processed_count, Hcount, lengths_telescope.
  rewrite recorded_end_offset by lia.
  destruct (removedBefore_bounds openBrackets closedBrackets tokens Hwithin last)
    as [Hbefore _]; [lia|].
  destruct (removedBefore_bounds openBrackets closedBrackets tokens Hwithin (S last))
    as [_ Hsum]; [lia|].
  destruct (Hwithin last) as [Hstart _]; [lia|].
  assert (Hend : 0 <= getEndOffset tokens last < 4294967296).
  { apply uint32_entry; [exact Huint|].
    pose proof (count_bound tokens last). lia. }
  rewrite Z.mod_small by lia.
  destruct (ProcessorProperties.loop_state TokenMetadata_getTokenType
              openBrackets closedBrackets tokens (getCount tokens)) as [_ [_ Hlen]].
  unfold processTokens. cbn [processedLine].
  rewrite Hlen, Hcount, Hsum, removedBefore_succ.
  change (getStartOffset tokens (S last)) with (getEndOffset tokens last). lia.
Qed.

End MoreLoop.

(** ** Properties of the callers *)

Section Callers.

Variable TokenMetadata_getTokenType : Z -> StandardTokenType.
Variable TokenMetadata_getLanguageId : Z -> Z.
Variable getLanguageConfiguration : string -> ResolvedLanguageConfiguration.
Variable model_getLineTokens : Z -> LineTokens.
Variable model_getLineMaxColumn : Z -> Z.
Variable createScopedLineTokens : LineTokens -> Z -> ScopedLineTokens.
Variable sliceAndInflate : LineTokens -> Z -> Z -> Z -> LineTokens.
Variable LineTokens_createEmpty : JSString -> LanguageIdCodec -> LineTokens.
Variable getLeadingWhitespace : JSString -> JSString.
Variable rules : IndentRulesSupport.

Local Abbreviation process :=
  (getProcessedLineAndTokens TokenMetadata_getTokenType TokenMetadata_getLanguageId
     getLanguageConfiguration).
Local Abbreviation processedLineOf :=
  (getProcessedLine TokenMetadata_getTokenType TokenMetadata_getLanguageId
     getLanguageConfiguration model_getLineTokens getLeadingWhitespace).

Lemma substringFrom_app (indentation rest : JSString) :
  substringFrom (indentation ++ rest) (jsLength indentation) = rest.
Proof.
  unfold substringFrom, substring, jsLength. rewrite length_app.
  replace (Z.min (Z.max (Z.of_nat (length indentation)) 0)
                 (Z.of_nat (length indentation + length rest)))
    with (Z.of_nat (length indentation)) by lia.
  replace (Z.min (Z.max (Z.of_nat (length indentation + length rest)) 0)
                 (Z.of_nat (length indentation + length rest)))
    with (Z.of_nat (length indentation + length rest)) by lia.
  rewrite Z.max_r, Z.min_l by lia. rewrite Nat2Z.id.
  rewrite skipn_app, skipn_all, Nat.sub_diag. cbn [skipn app].
  apply firstn_all2. lia.
Qed.

(** The new indentation replaces the leading whitespace, it is not put
    before it; adjusting a line to its own indentation gives the line. *)
Theorem adjustIndentation_replaces (line rest newIndentation : JSString) :
  line = getLeadingWhitespace line ++ rest ->
  adjustIndentation getLeadingWhitespace line newIndentation = newIndentation ++ rest
  /\ adjustIndentation getLeadingWhitespace line (getLeadingWhitespace line) = line.
Proof.
  intros Hline. unfold adjustIndentation.
  assert (Hrest : substringFrom line (jsLength (getLeadingWhitespace line)) = rest).
  { rewrite Hline at 1. apply substringFrom_app. }
  rewrite Hrest. split; [reflexivity|symmetry; exact Hline].
Qed.



End Callers.

Local Abbreviation exampleProcess :=
  (processTokens exampleTokenType [str "("] [str ")"]).

Lemma singleUnit_round : singleUnitBrackets [str "("] /\ singleUnitBrackets [str ")"].
Proof. split; intros b [<-|[]]; cbn; lia. Qed.

Lemma uint32Table_examples :
  uint32Table stringTokenLine /\ uint32Table stringThenOtherLine /\ uint32Table mixedLine.
Proof.
  repeat split; try (repeat constructor; cbv; congruence).
  - exists 1%nat. reflexivity.
  - exists 2%nat. reflexivity.
  - exists 3%nat. reflexivity.
Qed.

Lemma offsetsWithinLine_examples :
  offsetsWithinLine stringTokenLine /\ offsetsWithinLine stringThenOtherLine.
Proof.
  split; intros i Hi.
  - destruct i as [|i]; [cbv; repeat split; congruence|cbv in Hi; lia].
  - destruct i as [|[|i]]; [cbv; repeat split; congruence..|cbv in Hi; lia].
Qed.

Lemma escape_length_witness :
  forallb (fun c => negb (isRegexSpecial c)) (str "begin") = true
  /\ escapeStringForRegex (str "begin") = str "begin".
Proof.
  split; [reflexivity|].
  exact (proj2 (escape_length (str "begin")) eq_refl).
Defined.

Lemma removal_without_occurrence_witness :
  (forall b, In b ([str "("] ++ [str ")"]) -> b = [] \/ occursIn b (str "abc") = false)
  /\ removeBracketsFromText [str "("] [str ")"] (str "abc") = str "abc".
Proof.
  assert (H : forall b, In b ([str "("] ++ [str ")"]) ->
                        b = [] \/ occursIn b (str "abc") = false).
  { intros b [<-|[<-|[]]]; right; reflexivity. }
  split; [exact H|].
  exact (removal_without_occurrence [str "("] [str ")"] (str "abc") H).
Defined.

Lemma removal_of_single_units_witness :
  (singleUnitBrackets [str "("] /\ singleUnitBrackets [str ")"])
  /\ removeBracketsFromText [str "("] [str ")"] (str "a(b)c")
     = filter (survives (concat ([str "("] ++ [str ")"]))) (str "a(b)c").
Proof.
  split; [exact singleUnit_round|].
  exact (proj1 (removal_of_single_units [str "("] [str ")"] (str "a(b)c")
                  (proj1 singleUnit_round) (proj2 singleUnit_round))).
Defined.

Lemma removal_idempotent_witness :
  (singleUnitBrackets [str "("] /\ singleUnitBrackets [str ")"])
  /\ removeBracketsFromText [str "("] [str ")"]
       (removeBracketsFromText [str "("] [str ")"] (str "a(b)c"))
     = removeBracketsFromText [str "("] [str ")"] (str "a(b)c").
Proof.
  split; [exact singleUnit_round|].
  exact (removal_idempotent [str "("] [str ")"] (str "a(b)c")
           (proj1 singleUnit_round) (proj2 singleUnit_round)).
Defined.

Lemma tokens_keep_count_and_metadata_witness :
  uint32Table stringThenOtherLine
  /\ getCount (processedLineTokens (exampleProcess stringThenOtherLine))
     = getCount stringThenOtherLine.
Proof.
  split; [exact (proj1 (proj2 uint32Table_examples))|].
  exact (proj1 (tokens_keep_count_and_metadata exampleTokenType exampleLanguageId
                  [str "("] [str ")"] stringThenOtherLine
                  (proj1 (proj2 uint32Table_examples)))).
Defined.

Lemma processed_end_offset_witness :
  (1 < getCount stringThenOtherLine)%nat
  /\ getEndOffset (processedLineTokens (exampleProcess stringThenOtherLine)) 1
     = (getEndOffset stringThenOtherLine 1
        - removedBefore exampleTokenType [str "("] [str ")"] stringThenOtherLine 1)
       mod 4294967296.
Proof.
  assert (H : (1 < getCount stringThenOtherLine)%nat) by (cbv; lia).
  split; [exact H|].
  exact (processed_end_offset exampleTokenType [str "("] [str ")"] stringThenOtherLine 1 H).
Defined.

Lemma nothing_removed_pass_through_witness :
  (uint32Table mixedLine /\ tokensCoverLine mixedLine)
  /\ exampleProcess mixedLine = mkProcessedLineData (getLineContent mixedLine) mixedLine.
Proof.
  assert (Hcover : tokensCoverLine mixedLine) by reflexivity.
  assert (Hsame : forall i, (i < getCount mixedLine)%nat ->
                    processedTokenText exampleTokenType [str "("] [str ")"] mixedLine i
                    = getTokenText mixedLine i).
  { intros i Hi. destruct i as [|[|[|i]]]; [reflexivity..|cbv in Hi; lia]. }
  split; [split; [exact (proj2 (proj2 uint32Table_examples))|exact Hcover]|].
  exact (nothing_removed_pass_through exampleTokenType [str "("] [str ")"] mixedLine
           (proj2 (proj2 uint32Table_examples)) Hcover Hsame).
Defined.

Lemma partition_discrepancy_witness :
  (uint32Table stringTokenLine /\ offsetsWithinLine stringTokenLine
   /\ getCount stringTokenLine = 1%nat)
  /\ sumOfTokenLengths (processedLineTokens (exampleProcess stringTokenLine))
     = jsLength (processedLine (exampleProcess stringTokenLine))
       + removedFrom exampleTokenType [str "("] [str ")"] stringTokenLine 0.
Proof.
  split; [split; [exact (proj1 uint32Table_examples)
                 |split; [exact (proj1 offsetsWithinLine_examples)|reflexivity]]|].
  exact (partition_discrepancy exampleTokenType [str "("] [str ")"] stringTokenLine 0
           (proj1 uint32Table_examples) (proj1 offsetsWithinLine_examples) eq_refl).
Defined.

Lemma adjustIndentation_replaces_witness :
  str "  x" = (exampleLeadingWhitespace (str "  x") ++ str "x")%list
  /\ adjustIndentation exampleLeadingWhitespace (str "  x") (str "    ")
     = (str "    " ++ str "x")%list.
Proof.
  split; [reflexivity|].
  exact (proj1 (adjustIndentation_replaces exampleLeadingWhitespace
                  (str "  x") (str "x") (str "    ") eq_refl)).
Defined.



End ProcessorProperties.
